(** * DataDive25 / Team_Projects / app.py

    A shallow embedding of the data pipeline of [app.py]: the cached loader
    [load_mys] (label detection, slice filter, year tables, inner merge) and
    the script statements that follow it (the slider adjustment of the 2035
    column and the shared colour range of the two baseline maps).

    Conventions.
    - A pandas [DataFrame] is the list of its rows, in row order.
    - A cell of a categorical column is a Python [int] or [str] ([Py.value]).
    - The metric column holds binary64 numbers: Rocq's primitive [float].
    - [raise ValueError(...)] is the [Raise] constructor of [result]; the
      values interpolated in the message are the payload of the error. *)

From Stdlib Require Import ZArith List String Ascii Bool Lia Floats DecimalString.
From Stdlib Require Import Sorted Permutation.
Import ListNotations.

Set Warnings "-inexact-float".

(* ================================================================== *)
(** ** Python and pandas primitives *)
(* ================================================================== *)

Module Py.

(** A value of an object column: Python [int] or [str]. *)
Inductive value : Type :=
| VInt (n : Z)
| VStr (s : string).

(** Python [==] between such values: an [int] never equals a [str]. *)
Definition eqb (a b : value) : bool :=
  match a, b with
  | VInt x, VInt y => Z.eqb x y
  | VStr x, VStr y => String.eqb x y
  | _, _ => false
  end.

(** Python [str(a)]: decimal digits for an [int], the text itself for a [str]. *)
Definition str (a : value) : string :=
  match a with
  | VInt n => NilZero.string_of_int (Z.to_int n)
  | VStr s => s
  end.

(** [sub in s] for two Python strings: [sub] occurs in [s] as a substring. *)
Fixpoint contains (sub s : string) : bool :=
  String.prefix sub s ||
  match s with
  | EmptyString => false
  | String _ s' => contains sub s'
  end.

(** [x in arr] for a numpy array: some element equals [x]. *)
Definition isin {A : Type} (eq : A -> A -> bool) (x : A) (arr : list A) : bool :=
  existsb (eq x) arr.

(** [Series.unique()]: the distinct values in order of first appearance. *)
Fixpoint unique {A : Type} (eq : A -> A -> bool) (s : list A) : list A :=
  match s with
  | [] => []
  | x :: t => x :: filter (fun y => negb (eq x y)) (unique eq t)
  end.

(** [sorted(xs)] on integers (ascending, stable). *)
Fixpoint insert (x : Z) (l : list Z) : list Z :=
  match l with
  | [] => [x]
  | y :: t => if (x <? y)%Z then x :: l else y :: insert x t
  end.

Definition sorted (l : list Z) : list Z := fold_right insert [] l.

(** The builtin [min(a, b)] and [max(a, b)] on two floats: the first
    argument unless the second is strictly smaller (resp. larger). *)
Definition min (a b : float) : float := if (b <? a)%float then b else a.
Definition max (a b : float) : float := if (a <? b)%float then b else a.

(** [Series.min()] and [Series.max()] of a float column, which pandas
    builds from one NaN-skipping reduction: NaN cells are skipped, an empty
    or all-NaN column gives NaN. *)
Definition pick (better : float -> float -> bool) (acc x : float) : float :=
  if PrimFloat.is_nan x then acc
  else if PrimFloat.is_nan acc then x
  else if better x acc then x else acc.

Definition series_min (s : list float) : float :=
  fold_left (pick (fun x acc => (x <? acc)%float)) s nan.

Definition series_max (s : list float) : float :=
  fold_left (pick (fun x acc => (acc <? x)%float)) s nan.

End Py.

Abbreviation value := Py.value.
Abbreviation VInt := Py.VInt.
Abbreviation VStr := Py.VStr.

(* ================================================================== *)
(** ** Data model *)
(* ================================================================== *)

(** One row of [WD_MYS_Projections.csv] once [year] is numeric (lines 13-17). *)
Module Csv.
Record row : Type := mk {
  iso3 : string;
  scenario : value;
  sex : value;
  age : value;
  year : Z;
  mys : float
}.
End Csv.

Definition DataFrame : Type := list Csv.row.

(** One row of [df_merged]: the columns [iso3], [mys_2025], [mys_2035]. *)
Record merged : Type := mkMerged {
  iso3 : string;
  mys_2025 : float;
  mys_2035 : float
}.

(** One row of [df] after lines 134-137: the merged row and the two
    columns the script adds to it. *)
Record adjusted : Type := mkAdjusted {
  base : merged;
  mys_2035_sim : float;
  delta_2035_2025 : float
}.

(** The four [ValueError]s of [load_mys], with what each message shows. *)
Inductive ValueError : Type :=
| CannotDetectSSP1 (scen_vals : list value)
| CannotDetectYouth (age_vals : list value)
| YearsNotFound (years_available : list Z)
| NoOverlappingCountries.

Inductive result (A : Type) : Type :=
| Ok (a : A)
| Raise (e : ValueError).

Arguments Ok {A} a.
Arguments Raise {A} e.

Definition bind {A B : Type} (r : result A) (k : A -> result B) : result B :=
  match r with
  | Ok a => k a
  | Raise e => Raise e
  end.

Notation "x <- r ;; k" := (bind r (fun x => k))
  (at level 61, r at next level, right associativity).

(* ================================================================== *)
(** ** [load_mys] *)
(* ================================================================== *)

Open Scope string_scope.
Open Scope Z_scope.

(** Lines 20-34: how SSP1 is labelled. *)
Definition detect_ssp1 (scen_vals : list value) : result value :=
  let ssp1_label :=
    if Py.isin Py.eqb (VInt 1) scen_vals then Some (VInt 1)
    else if Py.isin Py.eqb (VStr "SSP1") scen_vals then Some (VStr "SSP1")
    else if Py.isin Py.eqb (VStr "1") scen_vals then Some (VStr "1")
    else None in
  match ssp1_label with
  | None => Raise (CannotDetectSSP1 scen_vals)
  | Some l => Ok l
  end.

(** Line 44: the direct patterns, tested on [str(a)]. *)
Definition is_15_24 (a : value) : bool :=
  let s := Py.str a in
  Py.contains "15-24" s || Py.contains "15_24" s || Py.contains "1524" s.

(** Line 51: the fallback pattern. *)
Definition mentions_15 (a : value) : bool :=
  Py.contains "15" (Py.str a).

(** Lines 39-52: the candidate list after both loops. *)
Definition youth_candidates (age_vals : list value) : list value :=
  let youth_candidates := filter is_15_24 age_vals in
  match youth_candidates with
  | [] => filter mentions_15 age_vals
  | _ :: _ => youth_candidates
  end.

(** Lines 54-61. *)
Definition detect_youth (age_vals : list value) : result value :=
  match youth_candidates age_vals with
  | [] => Raise (CannotDetectYouth age_vals)
  | youth_age :: _ => Ok youth_age
  end.

(** Lines 64-68: SSP1, youth, both sexes. *)
Definition in_slice (ssp1_label youth_age : value) (r : Csv.row) : bool :=
  Py.eqb (Csv.scenario r) ssp1_label &&
  Py.eqb (Csv.sex r) (VStr "Both") &&
  Py.eqb (Csv.age r) youth_age.

Definition df_ssp1 (df : DataFrame) (ssp1_label youth_age : value) : DataFrame :=
  filter (in_slice ssp1_label youth_age) df.

(** Lines 78-83: [df_ssp1[df_ssp1["year"] == y][["iso3", "mys"]]]. *)
Definition year_table (y : Z) (sub : DataFrame) : list (string * float) :=
  map (fun r => (Csv.iso3 r, Csv.mys r)) (filter (fun r => Csv.year r =? y) sub).

(** Line 85: [left.merge(right, on="iso3", how="inner")]: every pair of a
    left and a right row with the same key, in the order of the left rows. *)
Definition merge (left right : list (string * float)) : list merged :=
  flat_map (fun l =>
              map (fun r => mkMerged (fst l) (snd l) (snd r))
                  (filter (fun r => String.eqb (fst l) (fst r)) right))
           left.

Definition years_available (sub : DataFrame) : list Z :=
  Py.sorted (Py.unique Z.eqb (map Csv.year sub)).

(** Lines 71-91 on the filtered slice. *)
Definition build_tables (sub : DataFrame) : result (list merged) :=
  let years := years_available sub in
  if negb (Py.isin Z.eqb 2025 years) || negb (Py.isin Z.eqb 2035 years)
  then Raise (YearsNotFound years)
  else
    let df_2025 := year_table 2025 sub in
    let df_2035 := year_table 2035 sub in
    let df_merged := merge df_2025 df_2035 in
    match df_merged with
    | [] => Raise NoOverlappingCountries
    | _ :: _ => Ok df_merged
    end.

(** Lines 11-93. *)
Definition load_mys (df : DataFrame) : result (list merged * value) :=
  ssp1_label <- detect_ssp1 (Py.unique Py.eqb (map Csv.scenario df)) ;;
  youth_age <- detect_youth (Py.unique Py.eqb (map Csv.age df)) ;;
  df_merged <- build_tables (df_ssp1 df ssp1_label youth_age) ;;
  Ok (df_merged, youth_age).

(* ================================================================== *)
(** ** The script after [load_mys] *)
(* ================================================================== *)

(** Lines 134-137: the simulated 2035 column and its difference to 2025. *)
Definition adjust (df : list merged) (delta : float) : list adjusted :=
  map (fun r =>
         let sim := (mys_2035 r + delta)%float in
         mkAdjusted r sim (sim - mys_2025 r)%float)
      df.

(** Lines 161-162, evaluated on [df] as it is after lines 134-137. *)
Definition baseline_min (df : list adjusted) : float :=
  Py.min (Py.series_min (map (fun r => mys_2025 (base r)) df))
         (Py.series_min (map (fun r => mys_2035 (base r)) df)).

Definition baseline_max (df : list adjusted) : float :=
  Py.max (Py.series_max (map (fun r => mys_2025 (base r)) df))
         (Py.series_max (map (fun r => mys_2035 (base r)) df)).

(** Lines 102-165: load, adjust by the slider value, fix the colour range. *)
Definition app (csv : DataFrame) (delta : float)
  : result (list adjusted * (float * float)) :=
  loaded <- load_mys csv ;;
  let df := adjust (fst loaded) delta in
  let mys_min := baseline_min df in
  let mys_max := baseline_max df in
  Ok (df, (mys_min, mys_max)).

(* ================================================================== *)
(** ** Reading the tests of the code as propositions *)
(* ================================================================== *)

(** [sub] occurs in [s]. *)
Definition has_substring (sub s : string) : Prop :=
  exists pre post, s = pre ++ sub ++ post.

(** The two age patterns, on the textual form of a value. *)
Definition Direct15_24 (a : value) : Prop :=
  has_substring "15-24" (Py.str a) \/
  has_substring "15_24" (Py.str a) \/
  has_substring "1524" (Py.str a).

Definition Mentions15 (a : value) : Prop :=
  has_substring "15" (Py.str a).

(** [a] is the first element of [l], in list order, that satisfies [P]. *)
Definition first_such {A : Type} (P : A -> Prop) (l : list A) (a : A) : Prop :=
  exists before after,
    l = (before ++ a :: after)%list /\ P a /\ Forall (fun b => ~ P b) before.

(* ================================================================== *)
(** ** The slice as the specification words it *)
(* ================================================================== *)

Module Spec.

(** Section 4.2, step 1 of the specification, word for word: rows where
    [scenario == scenario_label AND sex == "both" AND age_group ==
    age_group_label].  Only used to compare with [df_ssp1]. *)
Definition slice (raw_table : DataFrame) (scenario_label age_group_label : value)
  : DataFrame :=
  filter (fun r =>
            Py.eqb (Csv.scenario r) scenario_label &&
            Py.eqb (Csv.sex r) (VStr "both") &&
            Py.eqb (Csv.age r) age_group_label)
         raw_table.

End Spec.

(* ================================================================== *)
(** ** Sample tables *)
(* ================================================================== *)

(** A row of scenario [1], age ["15-24"], with the given [sex] cell. *)
Definition sample_row (sex_cell iso : string) (y : Z) (v : float) : Csv.row :=
  Csv.mk iso (VInt 1) (VStr sex_cell) (VStr "15-24") y v.

(** 2025 rows for A, B, C and 2035 rows for B, C, D. *)
Definition abc_bcd (sex_cell : string) : DataFrame :=
  [ sample_row sex_cell "A" 2025 1.0; sample_row sex_cell "B" 2025 2.0;
    sample_row sex_cell "C" 2025 3.0; sample_row sex_cell "B" 2035 2.5;
    sample_row sex_cell "C" 2035 3.5; sample_row sex_cell "D" 2035 4.5 ]%float.

(** The two rows of the end-to-end example. *)
Definition xyz_table (sex_cell : string) : DataFrame :=
  [ sample_row sex_cell "XYZ" 2025 8.0; sample_row sex_cell "XYZ" 2035 9.0 ]%float.

(** A slice whose years are 2020 and 2030 only. *)
Definition table_2020_2030 : DataFrame :=
  [ sample_row "Both" "XYZ" 2030 9.0; sample_row "Both" "XYZ" 2020 8.0;
    sample_row "Both" "ABC" 2030 7.0 ]%float.

(** A slice with (XYZ, 2025) twice. *)
Definition duplicated_table : DataFrame :=
  [ sample_row "Both" "XYZ" 2025 8.0; sample_row "Both" "XYZ" 2025 8.5;
    sample_row "Both" "XYZ" 2035 9.0 ]%float.

(* ================================================================== *)
(** ** Measures used in the statements *)
(* ================================================================== *)

(** Number of rows of [sub] for country [c] in year [y]. *)
Definition count_rows (c : string) (y : Z) (sub : DataFrame) : nat :=
  List.length (filter (fun r => String.eqb (Csv.iso3 r) c && (Csv.year r =? y)) sub).

(** Number of rows of the merged table for country [c]. *)
Definition count_merged (c : string) (df_merged : list merged) : nat :=
  List.length (filter (fun m => String.eqb (iso3 m) c) df_merged).

(** Two cells hold the same number: Python's [==] on floats, with NaN
    matching NaN as pandas does when it compares columns. *)
Definition same_number (x y : float) : bool :=
  (x =? y)%float || (PrimFloat.is_nan x && PrimFloat.is_nan y).

(** The real number a finite float stands for, scaled by 2^1074 so that it
    is an integer (the smallest binary64 exponent is -1074); [None] for an
    infinity or NaN. *)
Definition scaled_value (x : float) : option Z :=
  match Prim2SF x with
  | S754_zero _ => Some 0
  | S754_finite s m e => Some (cond_Zopp s (Z.pos m) * 2 ^ (e + 1074))
  | S754_infinity _ | S754_nan => None
  end.

(** [x + y] is computed without rounding. *)
Definition exact_sum (x y : float) : Prop :=
  exists a b,
    scaled_value x = Some a /\ scaled_value y = Some b /\
    scaled_value (x + y)%float = Some (a + b).

(** [scaled_value] read on the specification of a float. *)
Definition sf_scaled (x : spec_float) : option Z :=
  match x with
  | S754_zero _ => Some 0
  | S754_finite s m e => Some (cond_Zopp s (Z.pos m) * 2 ^ (e + 1074))
  | S754_infinity _ | S754_nan => None
  end.

(** The binary64 rounding (to nearest, ties to even) of the real number
    [v * 2^-1074]. *)
Definition round_scaled (v : Z) : spec_float :=
  binary_normalize prec emax v (-1074) false.

(** Equal specifications, or two zeros of any sign. *)
Definition SF_same (u v : spec_float) : Prop :=
  u = v \/ exists s s', u = S754_zero s /\ v = S754_zero s'.

(** Two files with the same scenario values, in another order and number. *)
Definition mixed_scenarios : DataFrame :=
  [ Csv.mk "XYZ" (VStr "SSP1") (VStr "Both") (VStr "15-24") 2025 8.0;
    Csv.mk "XYZ" (VInt 1) (VStr "Both") (VStr "15-24") 2025 8.0 ]%float.

Definition mixed_scenarios_shuffled : DataFrame :=
  [ Csv.mk "XYZ" (VInt 1) (VStr "Both") (VStr "15-24") 2035 9.0;
    Csv.mk "XYZ" (VStr "SSP1") (VStr "Both") (VStr "15-24") 2025 8.0;
    Csv.mk "XYZ" (VInt 1) (VStr "Both") (VStr "15-24") 2025 8.0 ]%float.

(* ================================================================== *)
(** ** The primitives on small inputs *)
(* ================================================================== *)

Example str_of_int : Py.str (VInt 1524) = "1524" /\ Py.str (VInt (-15)) = "-15".
Proof. split; reflexivity. Qed.

Example contains_examples :
  Py.contains "15" "15+" = true /\ Py.contains "15-24" "age 15-24" = true /\
  Py.contains "15" "0-14" = false /\ Py.contains "15-24" "15+" = false.
Proof. repeat split; reflexivity. Qed.

Example int_is_not_str : Py.eqb (VInt 1) (VStr "1") = false.
Proof. reflexivity. Qed.

Example unique_keeps_first_seen : Py.unique Z.eqb [2035; 2025; 2035; 2030; 2025] = [2035; 2025; 2030].
Proof. reflexivity. Qed.

Example sorted_years : Py.sorted [2035; 2025; 2030] = [2025; 2030; 2035].
Proof. reflexivity. Qed.

Example numeric_age_label :
  detect_youth [VInt 14; VInt 1524; VInt 2564] = Ok (VInt 1524).
Proof. reflexivity. Qed.

Example merge_pairs_matching_keys :
  merge [("A", 1.0); ("B", 2.0)]%float [("B", 2.5); ("C", 3.5)]%float
  = [mkMerged "B" 2.0 2.5]%float.
Proof. reflexivity. Qed.

Example series_min_skips_nan :
  Py.series_min [nan; 3.0; 2.0; nan; 5.0]%float = 2.0%float /\
  Py.series_max [nan; 3.0; 2.0; nan; 5.0]%float = 5.0%float.
Proof. split; vm_compute; reflexivity. Qed.

(** 0.1 + 0.2 rounds, 9.0 + 1.5 does not. *)
Example exact_sum_examples : ~ exact_sum 0.1 0.2 /\ exact_sum 9.0 1.5.
Proof.
  split.
  - intros (a & b & Ha & Hb & Hab).
    vm_compute in Ha, Hb. injection Ha as <-. injection Hb as <-.
    vm_compute in Hab. discriminate Hab.
  - eexists _, _. repeat split; vm_compute; reflexivity.
Qed.

(* ================================================================== *)
(** ** Facts about the primitives *)
(* ================================================================== *)

Section Primitives.

Lemma py_eqb_eq (a b : value) : Py.eqb a b = true <-> a = b.
Proof.
  destruct a as [x|x], b as [y|y]; simpl.
  - rewrite Z.eqb_eq. split; [intros -> | intros [= ->]]; reflexivity.
  - split; discriminate.
  - split; discriminate.
  - rewrite String.eqb_eq. split; [intros -> | intros [= ->]]; reflexivity.
Qed.

Lemma py_eqb_refl (a : value) : Py.eqb a a = true.
Proof. now apply py_eqb_eq. Qed.

Variable A : Type.
Variable eq : A -> A -> bool.
Hypothesis eq_spec : forall x y, eq x y = true <-> x = y.

Lemma isin_In (x : A) (l : list A) : Py.isin eq x l = true <-> In x l.
Proof.
  unfold Py.isin. rewrite existsb_exists. split.
  - intros (y & Hy & E). apply eq_spec in E. now subst.
  - intros H. exists x. split; [assumption | now apply eq_spec].
Qed.

Lemma isin_false (x : A) (l : list A) : Py.isin eq x l = false <-> ~ In x l.
Proof.
  rewrite <- isin_In. destruct (Py.isin eq x l); split; intros H;
    try reflexivity; try discriminate; try (intros [=]).
  exfalso. now apply H.
Qed.

Lemma unique_In (x : A) (l : list A) : In x (Py.unique eq l) <-> In x l.
Proof.
  induction l as [|y t IH]; simpl; [tauto|].
  rewrite filter_In, IH. split.
  - intros [H | [H _]]; auto.
  - intros [H | H]; auto.
    destruct (eq y x) eqn:E.
    + left. now apply eq_spec.
    + right. now split.
Qed.

Lemma unique_NoDup (l : list A) : NoDup (Py.unique eq l).
Proof.
  induction l as [|y t IH]; simpl; constructor.
  - rewrite filter_In. intros [_ H].
    assert (E : eq y y = true) by now apply eq_spec.
    rewrite E in H. discriminate.
  - now apply NoDup_filter.
Qed.

End Primitives.

Lemma prefix_app (a s : string) :
  String.prefix a s = true <-> exists post, s = a ++ post.
Proof.
  revert s. induction a as [|c a IH]; intros s.
  - split; [intros _; now exists s | intros _; destruct s; reflexivity].
  - destruct s as [|d s]; simpl.
    + split; [discriminate | intros [post [=]]].
    + destruct (ascii_dec c d) as [->|N].
      * rewrite IH. split; intros [post E]; exists post; [now rewrite E | now injection E].
      * split; [discriminate | intros [post E]; injection E as E1 E2; now elim N].
Qed.

Lemma contains_unfold (sub s : string) :
  Py.contains sub s =
  String.prefix sub s ||
  match s with
  | EmptyString => false
  | String _ s' => Py.contains sub s'
  end.
Proof. destruct s; reflexivity. Qed.

Lemma contains_spec (sub s : string) :
  Py.contains sub s = true <-> has_substring sub s.
Proof.
  unfold has_substring. split.
  - induction s as [|c s IH]; rewrite contains_unfold, orb_true_iff.
    + intros [H | H]; [|discriminate].
      apply prefix_app in H as [post E]. now exists EmptyString, post.
    + intros [H | H].
      * apply prefix_app in H as [post E]. now exists EmptyString, post.
      * destruct (IH H) as (pre & post & E). exists (String c pre), post.
        simpl. now rewrite E.
  - intros (pre & post & E). revert s E.
    induction pre as [|c pre IH]; intros s E; simpl in E;
      rewrite contains_unfold, orb_true_iff.
    + left. apply prefix_app. now exists post.
    + subst s. right. now apply IH.
Qed.

Lemma is_15_24_spec (a : value) : is_15_24 a = true <-> Direct15_24 a.
Proof.
  unfold is_15_24, Direct15_24. cbv zeta.
  rewrite !orb_true_iff, !contains_spec. tauto.
Qed.

Lemma mentions_15_spec (a : value) : mentions_15 a = true <-> Mentions15 a.
Proof. unfold mentions_15, Mentions15. apply contains_spec. Qed.

(** The head of a [filter] is the first element that passes the test. *)
Lemma filter_head_first {A : Type} (f : A -> bool) (l : list A) (a : A) :
  (exists rest, filter f l = a :: rest) <->
  first_such (fun x => f x = true) l a.
Proof.
  unfold first_such. induction l as [|x t IH]; simpl.
  - split; [intros [rest [=]] | intros (b & r & E & _)].
    destruct b; discriminate.
  - destruct (f x) eqn:Fx.
    + split.
      * intros [rest [= -> _]]. exists [], t. repeat split; auto.
      * intros (b & r & E & Pa & Nb). destruct b as [|y b]; simpl in E.
        -- injection E as -> _. now exists (filter f t).
        -- injection E as -> _. inversion Nb; subst. congruence.
    + rewrite IH. split.
      * intros (b & r & E & Pa & Nb). exists (x :: b), r. subst t.
        repeat split; auto. constructor; [congruence | assumption].
      * intros (b & r & E & Pa & Nb). destruct b as [|y b]; simpl in E.
        -- injection E as -> _. congruence.
        -- injection E as -> ->. inversion Nb; subst. now exists b, r.
Qed.

Lemma filter_nil_Forall {A : Type} (f : A -> bool) (l : list A) :
  filter f l = [] <-> Forall (fun x => f x <> true) l.
Proof.
  induction l as [|x t IH]; simpl.
  - split; [constructor | reflexivity].
  - destruct (f x) eqn:Fx.
    + split; [discriminate | intros H; inversion H; congruence].
    + rewrite IH. split; [intros H; constructor; [congruence | assumption]
                         | intros H; now inversion H].
Qed.

Lemma first_such_iff {A : Type} (P Q : A -> Prop) (l : list A) (a : A) :
  (forall x, P x <-> Q x) -> first_such P l a -> first_such Q l a.
Proof.
  intros E (b & r & -> & Pa & Nb). exists b, r. repeat split.
  - now apply E.
  - eapply Forall_impl; [|exact Nb]. intros x Hx Qx. apply Hx. now apply E.
Qed.

(* ================================================================== *)
(** ** Label detection *)
(* ================================================================== *)

Lemma distinct_values_In {A : Type} (col : Csv.row -> A) (eq : A -> A -> bool)
      (df : DataFrame) (v : A) :
  (forall x y, eq x y = true <-> x = y) ->
  In v (Py.unique eq (map col df)) <-> exists r, In r df /\ col r = v.
Proof.
  intros E. rewrite (unique_In _ eq E), in_map_iff.
  split; intros (r & H1 & H2); exists r; now split.
Qed.

Lemma detect_ssp1_cases (scen_vals : list value) :
  (In (VInt 1) scen_vals -> detect_ssp1 scen_vals = Ok (VInt 1)) /\
  (~ In (VInt 1) scen_vals -> In (VStr "SSP1") scen_vals ->
   detect_ssp1 scen_vals = Ok (VStr "SSP1")) /\
  (~ In (VInt 1) scen_vals -> ~ In (VStr "SSP1") scen_vals ->
   In (VStr "1") scen_vals -> detect_ssp1 scen_vals = Ok (VStr "1")) /\
  (~ In (VInt 1) scen_vals -> ~ In (VStr "SSP1") scen_vals ->
   ~ In (VStr "1") scen_vals ->
   detect_ssp1 scen_vals = Raise (CannotDetectSSP1 scen_vals)).
Proof.
  unfold detect_ssp1.
  repeat split; intros;
    repeat match goal with
           | H : In _ _ |- _ => apply (isin_In _ _ py_eqb_eq) in H; rewrite H
           | H : ~ In _ _ |- _ => apply (isin_false _ _ py_eqb_eq) in H; rewrite H
           end; reflexivity.
Qed.

(** C1. The scenario label is chosen among the distinct values of the
    [scenario] column by first match in the order: the integer [1], then the
    string ["SSP1"], then the string ["1"]; in particular [1] wins over
    ["SSP1"] whenever both occur.  When none occurs, detection and with it
    [load_mys] raise the error that carries the distinct values seen. *)
Theorem scenario_label_priority (df : DataFrame) :
  let scen_vals := Py.unique Py.eqb (map Csv.scenario df) in
  (forall v, In v scen_vals <-> exists r, In r df /\ Csv.scenario r = v) /\
  (In (VInt 1) scen_vals -> detect_ssp1 scen_vals = Ok (VInt 1)) /\
  (In (VInt 1) scen_vals -> In (VStr "SSP1") scen_vals ->
   detect_ssp1 scen_vals = Ok (VInt 1)) /\
  (~ In (VInt 1) scen_vals -> In (VStr "SSP1") scen_vals ->
   detect_ssp1 scen_vals = Ok (VStr "SSP1")) /\
  (~ In (VInt 1) scen_vals -> ~ In (VStr "SSP1") scen_vals ->
   In (VStr "1") scen_vals -> detect_ssp1 scen_vals = Ok (VStr "1")) /\
  (~ In (VInt 1) scen_vals -> ~ In (VStr "SSP1") scen_vals ->
   ~ In (VStr "1") scen_vals ->
   detect_ssp1 scen_vals = Raise (CannotDetectSSP1 scen_vals) /\
   load_mys df = Raise (CannotDetectSSP1 scen_vals)).
Proof.
  intros scen_vals.
  destruct (detect_ssp1_cases scen_vals) as (H1 & H2 & H3 & H4).
  split; [intros v; apply distinct_values_In, py_eqb_eq|].
  repeat split; auto.
  unfold load_mys. fold scen_vals. rewrite H4 by assumption. reflexivity.
Qed.

Lemma youth_candidates_direct (age_vals : list value) (a : value) (rest : list value) :
  filter is_15_24 age_vals = a :: rest -> youth_candidates age_vals = a :: rest.
Proof. unfold youth_candidates. now intros ->. Qed.

Lemma youth_candidates_fallback (age_vals : list value) :
  filter is_15_24 age_vals = [] ->
  youth_candidates age_vals = filter mentions_15 age_vals.
Proof. unfold youth_candidates. now intros ->. Qed.

Lemma Forall_not_direct (age_vals : list value) :
  Forall (fun a => ~ Direct15_24 a) age_vals -> filter is_15_24 age_vals = [].
Proof.
  intros H. apply filter_nil_Forall. eapply Forall_impl; [|exact H].
  intros a N T. apply N. now apply is_15_24_spec.
Qed.

Lemma Forall_not_mentions (age_vals : list value) :
  Forall (fun a => ~ Mentions15 a) age_vals -> filter mentions_15 age_vals = [].
Proof.
  intros H. apply filter_nil_Forall. eapply Forall_impl; [|exact H].
  intros a N T. apply N. now apply mentions_15_spec.
Qed.

Lemma detect_youth_direct (age_vals : list value) (a : value) :
  first_such Direct15_24 age_vals a -> detect_youth age_vals = Ok a.
Proof.
  intros F.
  apply (first_such_iff _ (fun x => is_15_24 x = true)) in F;
    [|intros x; symmetry; apply is_15_24_spec].
  apply filter_head_first in F as [rest E].
  unfold detect_youth. now rewrite (youth_candidates_direct _ _ _ E).
Qed.

Lemma detect_youth_fallback (age_vals : list value) (a : value) :
  Forall (fun a => ~ Direct15_24 a) age_vals ->
  first_such Mentions15 age_vals a -> detect_youth age_vals = Ok a.
Proof.
  intros N F.
  apply (first_such_iff _ (fun x => mentions_15 x = true)) in F;
    [|intros x; symmetry; apply mentions_15_spec].
  apply filter_head_first in F as [rest E].
  unfold detect_youth.
  now rewrite (youth_candidates_fallback _ (Forall_not_direct _ N)), E.
Qed.

Lemma detect_youth_none (age_vals : list value) :
  Forall (fun a => ~ Direct15_24 a) age_vals ->
  Forall (fun a => ~ Mentions15 a) age_vals ->
  detect_youth age_vals = Raise (CannotDetectYouth age_vals).
Proof.
  intros N M. unfold detect_youth.
  now rewrite (youth_candidates_fallback _ (Forall_not_direct _ N)),
    (Forall_not_mentions _ M).
Qed.

Lemma filter_Permutation {A : Type} (f : A -> bool) (l l' : list A) :
  Permutation l l' -> Permutation (filter f l) (filter f l').
Proof.
  induction 1 as [| x l l' _ IH | x y l | l l' l'' _ IH1 _ IH2]; simpl.
  - constructor.
  - destruct (f x); [now constructor | exact IH].
  - destruct (f x), (f y); try apply Permutation_refl. apply perm_swap.
  - now apply perm_trans with (filter f l').
Qed.

(** C2. The youth label is the first distinct age value, in encounter
    order, whose text contains "15-24", "15_24" or "1524"; when no value
    does, it is the first whose text contains "15"; when none does either,
    detection (and [load_mys], once the scenario label is found) raises the
    error that carries the distinct age values.  On the values "0-14",
    "25-64", "65+", "15+", met in any order, the fallback selects "15+". *)
Theorem youth_label_resolution (age_vals : list value) :
  (forall a, first_such Direct15_24 age_vals a -> detect_youth age_vals = Ok a) /\
  (Forall (fun a => ~ Direct15_24 a) age_vals ->
   forall a, first_such Mentions15 age_vals a -> detect_youth age_vals = Ok a) /\
  (Forall (fun a => ~ Direct15_24 a) age_vals ->
   Forall (fun a => ~ Mentions15 a) age_vals ->
   detect_youth age_vals = Raise (CannotDetectYouth age_vals) /\
   forall df label,
     Py.unique Py.eqb (map Csv.age df) = age_vals ->
     detect_ssp1 (Py.unique Py.eqb (map Csv.scenario df)) = Ok label ->
     load_mys df = Raise (CannotDetectYouth age_vals)) /\
  (Permutation [VStr "0-14"; VStr "25-64"; VStr "65+"; VStr "15+"] age_vals ->
   detect_youth age_vals = Ok (VStr "15+")).
Proof.
  split; [intros a; apply detect_youth_direct|].
  split; [intros N a; now apply detect_youth_fallback|].
  split.
  - intros N M. pose proof (detect_youth_none _ N M) as E.
    split; [exact E|].
    intros df label Ea El. unfold load_mys. rewrite El, Ea. simpl. now rewrite E.
  - intros P.
    pose proof (filter_Permutation is_15_24 _ _ P) as P1.
    pose proof (filter_Permutation mentions_15 _ _ P) as P2.
    apply Permutation_nil in P1. apply Permutation_length_1_inv in P2.
    unfold detect_youth. now rewrite (youth_candidates_fallback _ P1), P2.
Qed.

(* ================================================================== *)
(** ** The filtered slice, its years and the merge *)
(* ================================================================== *)

Lemma insert_In (x y : Z) (l : list Z) : In y (Py.insert x l) <-> y = x \/ In y l.
Proof.
  induction l as [|z t IH]; simpl.
  - intuition.
  - destruct (x <? z); simpl; rewrite ?IH; intuition.
Qed.

Lemma sorted_In (y : Z) (l : list Z) : In y (Py.sorted l) <-> In y l.
Proof.
  induction l as [|x t IH]; simpl; [tauto|].
  rewrite insert_In, IH. intuition.
Qed.

Lemma insert_sorted (x : Z) (l : list Z) :
  ~ In x l -> StronglySorted Z.lt l -> StronglySorted Z.lt (Py.insert x l).
Proof.
  intros N S. induction S as [|z t St IH Hz]; simpl.
  - repeat constructor.
  - destruct (x <? z) eqn:C.
    + apply Z.ltb_lt in C. constructor; [now constructor|].
      constructor; [assumption|].
      eapply Forall_impl; [|exact Hz]. intros; lia.
    + apply Z.ltb_ge in C.
      assert (x <> z) by (intros ->; apply N; now left).
      constructor.
      * apply IH. intros I. apply N. now right.
      * apply Forall_forall. intros w Hw. apply insert_In in Hw as [-> | Hw].
        -- lia.
        -- rewrite Forall_forall in Hz. now apply Hz.
Qed.

Lemma sorted_strict (l : list Z) : NoDup l -> StronglySorted Z.lt (Py.sorted l).
Proof.
  induction 1 as [|x t N D IH]; simpl.
  - constructor.
  - apply insert_sorted; [now rewrite sorted_In | assumption].
Qed.

Lemma years_available_In (sub : DataFrame) (y : Z) :
  In y (years_available sub) <-> In y (map Csv.year sub).
Proof.
  unfold years_available. rewrite sorted_In.
  apply (unique_In _ Z.eqb Z.eqb_eq).
Qed.

Lemma years_available_sorted (sub : DataFrame) :
  StronglySorted Z.lt (years_available sub).
Proof. apply sorted_strict, (unique_NoDup _ Z.eqb Z.eqb_eq). Qed.

Lemma df_ssp1_In (df : DataFrame) (label youth : value) (r : Csv.row) :
  In r (df_ssp1 df label youth) <->
  In r df /\ Csv.scenario r = label /\ Csv.sex r = VStr "Both" /\ Csv.age r = youth.
Proof.
  unfold df_ssp1, in_slice.
  rewrite filter_In, !andb_true_iff, !py_eqb_eq. tauto.
Qed.

Lemma year_table_In (y : Z) (sub : DataFrame) (c : string) (v : float) :
  In (c, v) (year_table y sub) <->
  exists r, In r sub /\ Csv.year r = y /\ Csv.iso3 r = c /\ Csv.mys r = v.
Proof.
  unfold year_table. rewrite in_map_iff. split.
  - intros (r & E & I). apply filter_In in I as [I Y]. apply Z.eqb_eq in Y.
    injection E as <- <-. now exists r.
  - intros (r & I & Y & <- & <-). exists r. split; [reflexivity|].
    apply filter_In. split; [assumption | now apply Z.eqb_eq].
Qed.

Lemma year_table_key (y : Z) (sub : DataFrame) (c : string) :
  In c (map fst (year_table y sub)) <->
  exists r, In r sub /\ Csv.year r = y /\ Csv.iso3 r = c.
Proof.
  rewrite in_map_iff. split.
  - intros ([c' v] & E & I). simpl in E. subst c'.
    apply year_table_In in I as (r & I & Y & C & _). now exists r.
  - intros (r & I & Y & C). exists (c, Csv.mys r). split; [reflexivity|].
    apply year_table_In. now exists r.
Qed.

Lemma year_table_nil (y : Z) (sub : DataFrame) :
  ~ In y (map Csv.year sub) -> year_table y sub = [].
Proof.
  intros N. unfold year_table.
  replace (filter (fun r => Csv.year r =? y) sub) with (@nil Csv.row); [reflexivity|].
  symmetry. apply filter_nil_Forall, Forall_forall. intros r I E.
  apply Z.eqb_eq in E. apply N, in_map_iff. now exists r.
Qed.

Lemma merge_In (left right : list (string * float)) (c : string) (n f : float) :
  In (mkMerged c n f) (merge left right) <-> In (c, n) left /\ In (c, f) right.
Proof.
  unfold merge. rewrite in_flat_map. split.
  - intros ([c1 n1] & Il & Im). apply in_map_iff in Im as ([c2 f2] & E & Ir).
    apply filter_In in Ir as [Ir K]. simpl in *. apply String.eqb_eq in K.
    injection E as -> -> ->. subst. now split.
  - intros [Il Ir]. exists (c, n). split; [assumption|].
    apply in_map_iff. exists (c, f). split; [reflexivity|].
    apply filter_In. split; [assumption | now apply String.eqb_eq].
Qed.

Lemma merge_keys (left right : list (string * float)) (c : string) :
  In c (map iso3 (merge left right)) <->
  In c (map fst left) /\ In c (map fst right).
Proof.
  rewrite !in_map_iff. split.
  - intros ([c' n f] & E & I). simpl in E. subst c'. apply merge_In in I as [Il Ir].
    split; [now exists (c, n) | now exists (c, f)].
  - intros [([c1 n] & E1 & Il) ([c2 f] & E2 & Ir)]. simpl in *. subst.
    exists (mkMerged c n f). split; [reflexivity | now apply merge_In].
Qed.

Lemma merge_nil_left (right : list (string * float)) : merge [] right = [].
Proof. reflexivity. Qed.

Lemma merge_nil_right (left : list (string * float)) : merge left [] = [].
Proof. unfold merge. induction left as [|l t IH]; simpl; [reflexivity | exact IH]. Qed.

Lemma merge_nil_iff (left right : list (string * float)) :
  merge left right = [] <->
  forall c, ~ (In c (map fst left) /\ In c (map fst right)).
Proof.
  split.
  - intros E c H. apply merge_keys in H. rewrite E in H. exact H.
  - intros H. destruct (merge left right) as [|m t] eqn:E; [reflexivity|].
    exfalso. apply (H (iso3 m)), merge_keys. rewrite E. now left.
Qed.

Lemma build_tables_missing_year (sub : DataFrame) :
  ~ In 2025 (map Csv.year sub) \/ ~ In 2035 (map Csv.year sub) ->
  build_tables sub = Raise (YearsNotFound (years_available sub)).
Proof.
  intros H. unfold build_tables. cbv zeta.
  assert (E : negb (Py.isin Z.eqb 2025 (years_available sub))
              || negb (Py.isin Z.eqb 2035 (years_available sub)) = true).
  { apply orb_true_iff.
    destruct H as [H | H]; [left | right]; apply negb_true_iff;
      apply (isin_false _ Z.eqb Z.eqb_eq); now rewrite years_available_In. }
  now rewrite E.
Qed.

Lemma build_tables_years_present (sub : DataFrame) :
  In 2025 (map Csv.year sub) -> In 2035 (map Csv.year sub) ->
  build_tables sub =
  match merge (year_table 2025 sub) (year_table 2035 sub) with
  | [] => Raise NoOverlappingCountries
  | m :: t => Ok (m :: t)
  end.
Proof.
  intros H1 H2. unfold build_tables. cbv zeta.
  apply years_available_In, (isin_In _ Z.eqb Z.eqb_eq) in H1, H2.
  rewrite H1, H2. simpl.
  now destruct (merge (year_table 2025 sub) (year_table 2035 sub)).
Qed.

Lemma build_tables_Ok (sub : DataFrame) (df_merged : list merged) :
  build_tables sub = Ok df_merged ->
  In 2025 (map Csv.year sub) /\ In 2035 (map Csv.year sub) /\
  df_merged = merge (year_table 2025 sub) (year_table 2035 sub) /\
  df_merged <> [].
Proof.
  intros E.
  destruct (in_dec Z.eq_dec 2025 (map Csv.year sub)) as [H1 | N1];
    [| rewrite build_tables_missing_year in E by (now left); discriminate].
  destruct (in_dec Z.eq_dec 2035 (map Csv.year sub)) as [H2 | N2];
    [| rewrite build_tables_missing_year in E by (now right); discriminate].
  rewrite (build_tables_years_present _ H1 H2) in E.
  destruct (merge (year_table 2025 sub) (year_table 2035 sub)) as [|m t];
    [discriminate|].
  injection E as <-. repeat split; auto. discriminate.
Qed.

Lemma load_mys_resolved (df : DataFrame) (label youth : value) :
  detect_ssp1 (Py.unique Py.eqb (map Csv.scenario df)) = Ok label ->
  detect_youth (Py.unique Py.eqb (map Csv.age df)) = Ok youth ->
  load_mys df =
  (df_merged <- build_tables (df_ssp1 df label youth) ;; Ok (df_merged, youth)).
Proof. intros E1 E2. unfold load_mys. now rewrite E1, E2. Qed.

Lemma load_mys_Ok (df : DataFrame) (df_merged : list merged) (youth : value) :
  load_mys df = Ok (df_merged, youth) ->
  exists label,
    detect_ssp1 (Py.unique Py.eqb (map Csv.scenario df)) = Ok label /\
    detect_youth (Py.unique Py.eqb (map Csv.age df)) = Ok youth /\
    build_tables (df_ssp1 df label youth) = Ok df_merged.
Proof.
  unfold load_mys. intros E.
  destruct (detect_ssp1 _) as [label|] eqn:E1; simpl in E; [|discriminate].
  destruct (detect_youth _) as [y|] eqn:E2; simpl in E; [|discriminate].
  destruct (build_tables _) as [m|] eqn:E3; simpl in E; [|discriminate].
  injection E as -> ->. now exists label.
Qed.

(** C3 (as the code has it: the sex literal is "Both").  When [load_mys]
    returns a table, the rows it kept are those of the detected scenario
    label, sex "Both" and the detected age label; the table is the inner
    join on [iso3] of the 2025 rows and the 2035 rows of that slice: a
    country is in it exactly when it has a row in both years, and every row
    pairs a 2025 value of its country with a 2035 value of the same country. *)
Theorem merged_is_inner_join (df : DataFrame) (df_merged : list merged) (youth : value) :
  load_mys df = Ok (df_merged, youth) ->
  exists label,
    detect_ssp1 (Py.unique Py.eqb (map Csv.scenario df)) = Ok label /\
    detect_youth (Py.unique Py.eqb (map Csv.age df)) = Ok youth /\
    let sub := df_ssp1 df label youth in
    (forall r, In r sub <->
               In r df /\ Csv.scenario r = label /\
               Csv.sex r = VStr "Both" /\ Csv.age r = youth) /\
    (forall c, In c (map iso3 df_merged) <->
               (exists r, In r sub /\ Csv.year r = 2025 /\ Csv.iso3 r = c) /\
               (exists r, In r sub /\ Csv.year r = 2035 /\ Csv.iso3 r = c)) /\
    (forall c n f,
        In (mkMerged c n f) df_merged <->
        (exists r, In r sub /\ Csv.year r = 2025 /\ Csv.iso3 r = c /\ Csv.mys r = n) /\
        (exists r, In r sub /\ Csv.year r = 2035 /\ Csv.iso3 r = c /\ Csv.mys r = f)).
Proof.
  intros E. apply load_mys_Ok in E as (label & E1 & E2 & E3).
  exists label. split; [assumption|]. split; [assumption|].
  apply build_tables_Ok in E3 as (_ & _ & -> & _).
  cbv zeta. split; [|split].
  - intros r. apply df_ssp1_In.
  - intros c. now rewrite merge_keys, !year_table_key.
  - intros c n f. now rewrite merge_In, !year_table_In.
Qed.

(** Witness for C3: 2025 rows for A, B, C and 2035 rows for B, C, D give
    exactly B and C, each with its own two values. *)
Lemma merged_is_inner_join_witness :
  load_mys (abc_bcd "Both") =
    Ok ([mkMerged "B" 2.0 2.5; mkMerged "C" 3.0 3.5]%float, VStr "15-24") /\
  exists label,
    detect_ssp1 (Py.unique Py.eqb (map Csv.scenario (abc_bcd "Both"))) = Ok label /\
    detect_youth (Py.unique Py.eqb (map Csv.age (abc_bcd "Both"))) = Ok (VStr "15-24") /\
    let sub := df_ssp1 (abc_bcd "Both") label (VStr "15-24") in
    (forall r, In r sub <->
               In r (abc_bcd "Both") /\ Csv.scenario r = label /\
               Csv.sex r = VStr "Both" /\ Csv.age r = VStr "15-24") /\
    (forall c, In c (map iso3 [mkMerged "B" 2.0 2.5; mkMerged "C" 3.0 3.5]%float) <->
               (exists r, In r sub /\ Csv.year r = 2025 /\ Csv.iso3 r = c) /\
               (exists r, In r sub /\ Csv.year r = 2035 /\ Csv.iso3 r = c)) /\
    (forall c n f,
        In (mkMerged c n f) [mkMerged "B" 2.0 2.5; mkMerged "C" 3.0 3.5]%float <->
        (exists r, In r sub /\ Csv.year r = 2025 /\ Csv.iso3 r = c /\ Csv.mys r = n) /\
        (exists r, In r sub /\ Csv.year r = 2035 /\ Csv.iso3 r = c /\ Csv.mys r = f)).
Proof.
  split; [reflexivity|].
  exact (merged_is_inner_join (abc_bcd "Both") _ _ eq_refl).
Defined.

(** C3 as stated (sex "both") fails: on the A, B, C / B, C, D table whose
    sex cells read "both", the slice the specification describes has the
    2025 countries A, B, C and the 2035 countries B, C, D, yet [load_mys]
    keeps no row and raises instead of returning B and C. *)
Lemma lowercase_both_join_counterexample :
  map Csv.iso3 (filter (fun r => Csv.year r =? 2025)
                       (Spec.slice (abc_bcd "both") (VInt 1) (VStr "15-24")))
    = ["A"; "B"; "C"] /\
  map Csv.iso3 (filter (fun r => Csv.year r =? 2035)
                       (Spec.slice (abc_bcd "both") (VInt 1) (VStr "15-24")))
    = ["B"; "C"; "D"] /\
  load_mys (abc_bcd "both") = Raise (YearsNotFound []) /\
  ~ (exists df_merged youth, load_mys (abc_bcd "both") = Ok (df_merged, youth)).
Proof.
  repeat split; try reflexivity.
  intros (m & y & E). discriminate E.
Qed.

(** C6 (as the code has it: the sex literal is "Both").  Once both labels
    are detected, [load_mys] fails exactly in two cases, told apart by the
    slice of the detected scenario, sex "Both" and detected age: when 2025
    or 2035 is not a year of the slice it raises the error that lists the
    years of the slice; when both are but no country has a row in both
    years it raises the no-overlap error; otherwise it returns the merged
    table.  A slice whose years are 2020 and 2030 gives the error listing
    [2020; 2030]. *)
Theorem extraction_fails_exactly_when (df : DataFrame) (label youth : value) :
  detect_ssp1 (Py.unique Py.eqb (map Csv.scenario df)) = Ok label ->
  detect_youth (Py.unique Py.eqb (map Csv.age df)) = Ok youth ->
  let sub := df_ssp1 df label youth in
  let near := year_table 2025 sub in
  let far := year_table 2035 sub in
  (forall r, In r sub <->
             In r df /\ Csv.scenario r = label /\
             Csv.sex r = VStr "Both" /\ Csv.age r = youth) /\
  (forall y, In y (years_available sub) <-> exists r, In r sub /\ Csv.year r = y) /\
  (~ In 2025 (map Csv.year sub) \/ ~ In 2035 (map Csv.year sub) ->
   load_mys df = Raise (YearsNotFound (years_available sub))) /\
  (In 2025 (map Csv.year sub) -> In 2035 (map Csv.year sub) ->
   (forall c, ~ (In c (map fst near) /\ In c (map fst far))) ->
   load_mys df = Raise NoOverlappingCountries) /\
  (In 2025 (map Csv.year sub) -> In 2035 (map Csv.year sub) ->
   (exists c, In c (map fst near) /\ In c (map fst far)) ->
   load_mys df = Ok (merge near far, youth)) /\
  (years_available sub = [2020; 2030] ->
   load_mys df = Raise (YearsNotFound [2020; 2030])).
Proof.
  intros E1 E2 sub near far.
  rewrite (load_mys_resolved _ _ _ E1 E2). fold sub.
  split; [intros r; apply df_ssp1_In|].
  split.
  { intros y. rewrite years_available_In, in_map_iff.
    split; intros (r & H1 & H2); exists r; now split. }
  split; [|split; [|split]].
  - intros H. now rewrite build_tables_missing_year.
  - intros H1 H2 N. rewrite (build_tables_years_present _ H1 H2).
    apply merge_nil_iff in N. fold near far. now rewrite N.
  - intros H1 H2 (c & Hc). rewrite (build_tables_years_present _ H1 H2).
    fold near far. destruct (merge near far) as [|m t] eqn:Em; [|reflexivity].
    exfalso. revert Hc. now apply merge_nil_iff.
  - intros Y. rewrite build_tables_missing_year; [now rewrite Y|].
    left. rewrite <- years_available_In, Y. simpl. intuition discriminate.
Qed.

(** Witness for C6: the slice of [table_2020_2030] has the years 2020 and
    2030 only. *)
Lemma extraction_fails_exactly_when_witness :
  years_available (df_ssp1 table_2020_2030 (VInt 1) (VStr "15-24")) = [2020; 2030] /\
  load_mys table_2020_2030 = Raise (YearsNotFound [2020; 2030]).
Proof.
  split; [reflexivity|].
  exact (proj2 (proj2 (proj2 (proj2 (proj2
    (extraction_fails_exactly_when table_2020_2030 (VInt 1) (VStr "15-24")
       eq_refl eq_refl))))) eq_refl).
Defined.

(** C6 as stated (sex "both") fails: in [xyz_table "both"] the slice the
    specification describes holds both 2025 and 2035 for the country XYZ, so
    neither failure condition of the claim is met, yet [load_mys] raises;
    the years it reports are those of the slice the code takes, which is
    empty. *)
Lemma lowercase_both_failure_counterexample :
  let spec_sub := Spec.slice (xyz_table "both") (VInt 1) (VStr "15-24") in
  In 2025 (map Csv.year spec_sub) /\
  In 2035 (map Csv.year spec_sub) /\
  merge (year_table 2025 spec_sub) (year_table 2035 spec_sub)
    = [mkMerged "XYZ" 8.0 9.0]%float /\
  load_mys (xyz_table "both") = Raise (YearsNotFound []).
Proof.
  cbv zeta. repeat split; try reflexivity.
  - left. reflexivity.
  - right. left. reflexivity.
Qed.

(** C10. Once both labels are detected, a slice that lacks 2025 or 2035
    always yields the missing-year error, never the no-overlap error, even
    though the merge of its two year tables is then empty as well; the
    error carries the years of the slice, in strictly increasing order. *)
Theorem missing_year_error_comes_first (df : DataFrame) (label youth : value) :
  detect_ssp1 (Py.unique Py.eqb (map Csv.scenario df)) = Ok label ->
  detect_youth (Py.unique Py.eqb (map Csv.age df)) = Ok youth ->
  let sub := df_ssp1 df label youth in
  ~ In 2025 (map Csv.year sub) \/ ~ In 2035 (map Csv.year sub) ->
  load_mys df = Raise (YearsNotFound (years_available sub)) /\
  load_mys df <> Raise NoOverlappingCountries /\
  merge (year_table 2025 sub) (year_table 2035 sub) = [] /\
  StronglySorted Z.lt (years_available sub) /\
  (forall y, In y (years_available sub) <-> In y (map Csv.year sub)).
Proof.
  intros E1 E2 sub H.
  assert (L : load_mys df = Raise (YearsNotFound (years_available sub))).
  { rewrite (load_mys_resolved _ _ _ E1 E2). fold sub.
    now rewrite build_tables_missing_year. }
  split; [exact L|]. split; [rewrite L; discriminate|].
  split; [|split].
  - destruct H as [H | H]; rewrite (year_table_nil _ _ H).
    + apply merge_nil_left.
    + apply merge_nil_right.
  - apply years_available_sorted.
  - intros y. apply years_available_In.
Qed.

(** Witness for C10: [table_2020_2030] has no 2025 row. *)
Lemma missing_year_error_comes_first_witness :
  load_mys table_2020_2030 = Raise (YearsNotFound [2020; 2030]) /\
  load_mys table_2020_2030 <> Raise NoOverlappingCountries.
Proof.
  assert (N : ~ In 2025 (map Csv.year (df_ssp1 table_2020_2030 (VInt 1) (VStr "15-24")))
              \/ ~ In 2035 (map Csv.year (df_ssp1 table_2020_2030 (VInt 1) (VStr "15-24")))).
  { left. simpl. intuition discriminate. }
  pose proof (missing_year_error_comes_first table_2020_2030 (VInt 1) (VStr "15-24")
                eq_refl eq_refl N) as (H1 & H2 & _).
  split; [exact H1 | exact H2].
Defined.

(* ================================================================== *)
(** ** Duplicate keys *)
(* ================================================================== *)

Lemma filter_map_length {A B : Type} (p : B -> bool) (g : A -> B) (l : list A) :
  List.length (filter p (map g l)) = List.length (filter (fun x => p (g x)) l).
Proof.
  induction l as [|x t IH]; simpl; [reflexivity|].
  destruct (p (g x)); simpl; now rewrite IH.
Qed.

Lemma filter_twice {A : Type} (p q : A -> bool) (l : list A) :
  filter p (filter q l) = filter (fun x => p x && q x) l.
Proof.
  induction l as [|x t IH]; simpl; [reflexivity|].
  destruct (q x) eqn:Q; simpl; rewrite ?andb_true_r, ?andb_false_r;
    destruct (p x); simpl; now rewrite IH.
Qed.

Lemma filter_ext_length {A : Type} (p q : A -> bool) (l : list A) :
  (forall x, p x = q x) -> List.length (filter p l) = List.length (filter q l).
Proof. intros E. now rewrite (filter_ext p q E). Qed.

Lemma merge_count (left right : list (string * float)) (c : string) :
  count_merged c (merge left right) =
  (List.length (filter (fun l => String.eqb (fst l) c) left) *
   List.length (filter (fun r => String.eqb (fst r) c) right))%nat.
Proof.
  unfold count_merged, merge.
  induction left as [|[k n] t IH]; simpl; [reflexivity|].
  rewrite filter_app, length_app, IH, filter_map_length. simpl.
  destruct (String.eqb k c) eqn:K; simpl.
  - apply String.eqb_eq in K. subst k.
    rewrite filter_true. f_equal.
    apply filter_ext_length. intros [k' f]. simpl. apply String.eqb_sym.
  - now rewrite filter_false.
Qed.

Lemma year_table_count (c : string) (y : Z) (sub : DataFrame) :
  List.length (filter (fun l => String.eqb (fst l) c) (year_table y sub)) =
  count_rows c y sub.
Proof.
  unfold year_table, count_rows. now rewrite filter_map_length, filter_twice.
Qed.

(** C7 (as the code does it).  [load_mys] has no test for repeated
    (country, year) keys: whenever it returns a table, a country with [n]
    rows for 2025 and [m] rows for 2035 in the slice has [n * m] rows in
    the merged table, so repeated keys multiply rows and raise nothing. *)
Theorem duplicate_keys_multiply_rows
        (df : DataFrame) (df_merged : list merged) (youth : value) :
  load_mys df = Ok (df_merged, youth) ->
  exists label,
    detect_ssp1 (Py.unique Py.eqb (map Csv.scenario df)) = Ok label /\
    forall c,
      count_merged c df_merged =
      (count_rows c 2025 (df_ssp1 df label youth) *
       count_rows c 2035 (df_ssp1 df label youth))%nat.
Proof.
  intros E. apply load_mys_Ok in E as (label & E1 & _ & E3).
  exists label. split; [assumption|]. intros c.
  apply build_tables_Ok in E3 as (_ & _ & -> & _).
  now rewrite merge_count, !year_table_count.
Qed.

(** Witness for C7: two rows for (XYZ, 2025) and one for (XYZ, 2035) give
    two merged rows. *)
Lemma duplicate_keys_multiply_rows_witness :
  load_mys duplicated_table =
    Ok ([mkMerged "XYZ" 8.0 9.0; mkMerged "XYZ" 8.5 9.0]%float, VStr "15-24") /\
  exists label,
    detect_ssp1 (Py.unique Py.eqb (map Csv.scenario duplicated_table)) = Ok label /\
    forall c,
      count_merged c [mkMerged "XYZ" 8.0 9.0; mkMerged "XYZ" 8.5 9.0]%float =
      (count_rows c 2025 (df_ssp1 duplicated_table label (VStr "15-24")) *
       count_rows c 2035 (df_ssp1 duplicated_table label (VStr "15-24")))%nat.
Proof.
  split; [reflexivity|].
  exact (duplicate_keys_multiply_rows duplicated_table _ _ eq_refl).
Defined.

(** C7 as stated fails: the slice of [duplicated_table] is the whole
    table and holds the key (XYZ, 2025) twice, yet [load_mys] returns a
    table, with one row per copy, instead of raising. *)
Lemma duplicate_key_counterexample :
  df_ssp1 duplicated_table (VInt 1) (VStr "15-24") = duplicated_table /\
  ~ NoDup (map (fun r => (Csv.iso3 r, Csv.year r)) duplicated_table) /\
  load_mys duplicated_table =
    Ok ([mkMerged "XYZ" 8.0 9.0; mkMerged "XYZ" 8.5 9.0]%float, VStr "15-24").
Proof.
  split; [reflexivity|]. split; [|reflexivity].
  intros N. inversion N as [|k t Hk _]. apply Hk. now left.
Qed.

(* ================================================================== *)
(** ** Binary64 facts used by the adjustment *)
(* ================================================================== *)

Lemma same_number_refl (x : float) : same_number x x = true.
Proof.
  unfold same_number, PrimFloat.is_nan. now destruct (x =? x)%float.
Qed.

(** Two floats with the same specification value, or two zeros of any
    sign, hold the same number. *)
Lemma same_number_of_SF (x y : float) :
  Prim2SF x = Prim2SF y \/
  (exists s s', Prim2SF x = S754_zero s /\ Prim2SF y = S754_zero s') ->
  same_number x y = true.
Proof.
  intros [E | (s & s' & Ex & Ey)].
  - apply Prim2SF_inj in E. subst y. apply same_number_refl.
  - unfold same_number. now rewrite eqb_spec, Ex, Ey.
Qed.

Lemma add_zero_SF (x : float) :
  Prim2SF (x + 0)%float =
  match Prim2SF x with
  | S754_zero _ => S754_zero false
  | a => a
  end.
Proof.
  rewrite add_spec. change (Prim2SF 0%float) with (S754_zero false).
  now destruct (Prim2SF x) as [[|] | [|] | | [|] m e].
Qed.

Lemma add_zero_same (x : float) : same_number (x + 0)%float x = true.
Proof.
  apply same_number_of_SF. rewrite add_zero_SF.
  destruct (Prim2SF x) as [s | s | | s m e]; [right; now exists false, s | left .. ];
    reflexivity.
Qed.

Lemma add_zero_sub_same (x n : float) :
  same_number ((x + 0) - n)%float (x - n)%float = true.
Proof.
  apply same_number_of_SF. rewrite !sub_spec, add_zero_SF.
  destruct (Prim2SF x) as [s | s | | s m e]; [| left; reflexivity ..].
  destruct (Prim2SF n) as [s' | s' | | s' m' e']; [| left; reflexivity ..].
  right. destruct s, s'; simpl; eauto.
Qed.

(* ================================================================== *)
(** ** Order facts behind [min] and [max] *)
(* ================================================================== *)

Ltac compare_cases :=
  repeat match goal with
         | H : context [(?a ?= ?b)%Z] |- _ => destruct (Z.compare_spec a b)
         | |- context [(?a ?= ?b)%Z] => destruct (Z.compare_spec a b)
         | H : context [PosDef.Pos.compare_cont Eq ?a ?b] |- _ =>
             change (PosDef.Pos.compare_cont Eq a b) with (Pos.compare a b) in *;
             destruct (Pos.compare_spec a b)
         | |- context [PosDef.Pos.compare_cont Eq ?a ?b] =>
             change (PosDef.Pos.compare_cont Eq a b) with (Pos.compare a b) in *;
             destruct (Pos.compare_spec a b)
         end.

Ltac by_float_cases a b c :=
  unfold SFltb, SFcompare;
  destruct a as [[|] | [|] | | [|] ? ?], b as [[|] | [|] | | [|] ? ?],
           c as [[|] | [|] | | [|] ? ?];
  intros; try reflexivity; try discriminate; try congruence;
  compare_cases; simpl in *; try reflexivity; try discriminate; subst; try lia.

(** [a < b] and [b <= c] give [a <= c]. *)
Lemma SFltb_below (a b c : spec_float) :
  SFltb a b = true -> SFltb c b = false -> SFltb c a = false.
Proof. by_float_cases a b c. Qed.

(** [a < b] and [c <= a] give [c <= b]. *)
Lemma SFltb_above (a b c : spec_float) :
  SFltb a b = true -> SFltb a c = false -> SFltb b c = false.
Proof. by_float_cases a b c. Qed.

(** [b <= a] and [c <= b] give [c <= a], when [b] is a number. *)
Lemma SFltb_not_trans (a b c : spec_float) :
  b <> S754_nan -> SFltb a b = false -> SFltb b c = false -> SFltb a c = false.
Proof. by_float_cases a b c. Qed.

Lemma is_nan_SF (x : float) : PrimFloat.is_nan x = true <-> Prim2SF x = S754_nan.
Proof.
  unfold PrimFloat.is_nan. rewrite eqb_spec, negb_true_iff.
  unfold SFeqb, SFcompare.
  destruct (Prim2SF x) as [[|] | [|] | | [|] m e];
    try (split; congruence);
    rewrite Z.compare_refl;
    change (PosDef.Pos.compare_cont Eq m m) with (Pos.compare m m);
    rewrite Pos.compare_refl; simpl; split; congruence.
Qed.

Lemma ltb_nan_r (x y : float) : PrimFloat.is_nan y = true -> (x <? y)%float = false.
Proof.
  intros N. apply is_nan_SF in N. rewrite ltb_spec, N.
  unfold SFltb, SFcompare. now destruct (Prim2SF x).
Qed.

Lemma ltb_below (a b c : float) :
  (a <? b)%float = true -> (c <? b)%float = false -> (c <? a)%float = false.
Proof. rewrite !ltb_spec. apply SFltb_below. Qed.

Lemma ltb_above (a b c : float) :
  (a <? b)%float = true -> (a <? c)%float = false -> (b <? c)%float = false.
Proof. rewrite !ltb_spec. apply SFltb_above. Qed.

Lemma ltb_not_trans (a b c : float) :
  PrimFloat.is_nan b = false ->
  (a <? b)%float = false -> (b <? c)%float = false -> (a <? c)%float = false.
Proof.
  rewrite !ltb_spec. intros N. apply SFltb_not_trans.
  intros E. apply is_nan_SF in E. congruence.
Qed.

Lemma ltb_irrefl (x : float) : (x <? x)%float = false.
Proof.
  rewrite ltb_spec. unfold SFltb, SFcompare.
  destruct (Prim2SF x) as [[|] | [|] | | [|] m e]; try reflexivity;
    rewrite Z.compare_refl;
    change (PosDef.Pos.compare_cont Eq m m) with (Pos.compare m m);
    now rewrite Pos.compare_refl.
Qed.

Lemma pick_cases (better : float -> float -> bool) (acc x : float) :
  (PrimFloat.is_nan x = true /\ Py.pick better acc x = acc) \/
  (PrimFloat.is_nan x = false /\ PrimFloat.is_nan acc = true /\
   Py.pick better acc x = x) \/
  (PrimFloat.is_nan x = false /\ PrimFloat.is_nan acc = false /\
   better x acc = true /\ Py.pick better acc x = x) \/
  (PrimFloat.is_nan x = false /\ PrimFloat.is_nan acc = false /\
   better x acc = false /\ Py.pick better acc x = acc).
Proof.
  unfold Py.pick.
  destruct (PrimFloat.is_nan x), (PrimFloat.is_nan acc), (better x acc); tauto.
Qed.

Section Reduction.

Variable better : float -> float -> bool.
Hypothesis better_irrefl : forall x, better x x = false.
Hypothesis better_keep :
  forall x a m, better x a = true -> better x m = false -> better a m = false.
Hypothesis better_not_trans :
  forall x a m, PrimFloat.is_nan a = false ->
                better x a = false -> better a m = false -> better x m = false.

(** The reduction returns its start value or a cell; once it holds a
    number it keeps holding one that no number met so far is better than. *)
Lemma fold_pick_spec (s : list float) (acc : float) :
  let m := fold_left (Py.pick better) s acc in
  (m = acc \/ In m s) /\
  (PrimFloat.is_nan acc = false ->
   PrimFloat.is_nan m = false /\ better acc m = false) /\
  (forall x, In x s -> PrimFloat.is_nan x = false ->
             PrimFloat.is_nan m = false /\ better x m = false).
Proof.
  revert acc. induction s as [|x t IH]; intros acc; simpl.
  - split; [now left|]. split; [|contradiction]. intros N. now split.
  - destruct (IH (Py.pick better acc x)) as (I1 & I2 & I3).
    set (m := fold_left (Py.pick better) t (Py.pick better acc x)) in *.
    destruct (pick_cases better acc x)
      as [(Nx & E) | [(Nx & Na & E) | [(Nx & Na & B & E) | (Nx & Na & B & E)]]];
      rewrite E in I1, I2; clearbody m;
      (split; [destruct I1 as [I1 | I1]; auto|]).
    + split; [exact I2|].
      intros y [<- | Hy] Ny; [congruence | now apply I3].
    + split; [congruence|].
      intros y [<- | Hy] Ny; [now apply I2 | now apply I3].
    + split.
      * intros _. destruct (I2 Nx) as [Nm Bm]. split; [exact Nm|].
        now apply (better_keep x).
      * intros y [<- | Hy] Ny; [now apply I2 | now apply I3].
    + split; [exact I2|].
      intros y [<- | Hy] Ny; [|now apply I3].
      destruct (I2 Na) as [Nm Bm]. split; [exact Nm|].
      now apply (better_not_trans x acc).
Qed.

End Reduction.

(** [Series.min()] is NaN or a cell of the column, and no number of the
    column is below it. *)
Lemma series_min_spec (s : list float) :
  (PrimFloat.is_nan (Py.series_min s) = true \/ In (Py.series_min s) s) /\
  forall x, In x s -> PrimFloat.is_nan x = false ->
            PrimFloat.is_nan (Py.series_min s) = false /\
            (x <? Py.series_min s)%float = false.
Proof.
  destruct (fold_pick_spec (fun x acc => (x <? acc)%float)
              ltb_irrefl
              (fun x a m => ltb_above x a m)
              (fun x a m => ltb_not_trans x a m) s nan) as (H1 & _ & H3).
  fold (Py.series_min s) in H1, H3. split; [|exact H3].
  destruct H1 as [-> | H1]; [now left | now right].
Qed.

(** [Series.max()] is NaN or a cell of the column, and no number of the
    column is above it. *)
Lemma series_max_spec (s : list float) :
  (PrimFloat.is_nan (Py.series_max s) = true \/ In (Py.series_max s) s) /\
  forall x, In x s -> PrimFloat.is_nan x = false ->
            PrimFloat.is_nan (Py.series_max s) = false /\
            (Py.series_max s <? x)%float = false.
Proof.
  destruct (fold_pick_spec (fun x acc => (acc <? x)%float)
              ltb_irrefl
              (fun x a m => ltb_below a x m)
              (fun x a m N H1 H2 => ltb_not_trans m a x N H2 H1) s nan)
    as (H1 & _ & H3).
  fold (Py.series_max s) in H1, H3. split; [|exact H3].
  destruct H1 as [-> | H1]; [now left | now right].
Qed.

Lemma py_min_cases (a b : float) : Py.min a b = a \/ Py.min a b = b.
Proof. unfold Py.min. destruct (b <? a)%float; auto. Qed.

Lemma py_max_cases (a b : float) : Py.max a b = a \/ Py.max a b = b.
Proof. unfold Py.max. destruct (a <? b)%float; auto. Qed.

Lemma py_min_below_l (a b x : float) :
  (x <? a)%float = false -> (x <? Py.min a b)%float = false.
Proof.
  intros H. unfold Py.min. destruct (b <? a)%float eqn:C; [|exact H].
  now apply (ltb_below b a x).
Qed.

Lemma py_min_below_r (a b y : float) :
  PrimFloat.is_nan b = false ->
  (y <? b)%float = false -> (y <? Py.min a b)%float = false.
Proof.
  intros N H. unfold Py.min. destruct (b <? a)%float eqn:C; [exact H|].
  now apply (ltb_not_trans y b a).
Qed.

Lemma py_max_above_l (a b x : float) :
  (a <? x)%float = false -> (Py.max a b <? x)%float = false.
Proof.
  intros H. unfold Py.max. destruct (a <? b)%float eqn:C; [|exact H].
  now apply (ltb_above a b x).
Qed.

Lemma py_max_above_r (a b y : float) :
  PrimFloat.is_nan b = false ->
  (b <? y)%float = false -> (Py.max a b <? y)%float = false.
Proof.
  intros N H. unfold Py.max. destruct (a <? b)%float eqn:C; [exact H|].
  now apply (ltb_not_trans a b y).
Qed.

(* ================================================================== *)
(** ** The adjustment and the colour range *)
(* ================================================================== *)

Lemma adjust_base (df : list merged) (delta : float) :
  map base (adjust df delta) = df.
Proof.
  unfold adjust. rewrite map_map. simpl. apply map_id.
Qed.

Lemma adjust_In (df : list merged) (delta : float) (r : adjusted) :
  In r (adjust df delta) <->
  exists m, In m df /\
            r = mkAdjusted m (mys_2035 m + delta)%float
                           ((mys_2035 m + delta) - mys_2025 m)%float.
Proof.
  unfold adjust. rewrite in_map_iff.
  split; intros (m & H1 & H2); exists m; cbv zeta in *; now split.
Qed.

(** C4. The adjustment keeps every merged row as it is, in order (no row
    dropped, none changed), and adds to each the two columns
    [mys_2035_sim = mys_2035 + delta] and
    [delta_2035_2025 = mys_2035_sim - mys_2025], for any [delta] with no
    clamping; with [delta = 0] the simulated column holds the same numbers
    as [mys_2035] and the difference column the same numbers as
    [mys_2035 - mys_2025]. *)
Theorem adjust_adds_two_columns (df : list merged) (delta : float) :
  map base (adjust df delta) = df /\
  List.length (adjust df delta) = List.length df /\
  Forall (fun r =>
            mys_2035_sim r = (mys_2035 (base r) + delta)%float /\
            delta_2035_2025 r = (mys_2035_sim r - mys_2025 (base r))%float)
         (adjust df delta) /\
  Forall (fun r =>
            same_number (mys_2035_sim r) (mys_2035 (base r)) = true /\
            same_number (delta_2035_2025 r)
                        (mys_2035 (base r) - mys_2025 (base r))%float = true)
         (adjust df 0%float).
Proof.
  split; [apply adjust_base|].
  split; [unfold adjust; apply length_map|].
  split; apply Forall_forall; intros r I;
    apply adjust_In in I as (m & _ & ->); simpl.
  - now split.
  - split; [apply add_zero_same | apply add_zero_sub_same].
Qed.

Lemma baseline_min_adjust (df : list merged) (delta : float) :
  baseline_min (adjust df delta) =
  Py.min (Py.series_min (map mys_2025 df)) (Py.series_min (map mys_2035 df)).
Proof. unfold baseline_min, adjust. now rewrite !map_map. Qed.

Lemma baseline_max_adjust (df : list merged) (delta : float) :
  baseline_max (adjust df delta) =
  Py.max (Py.series_max (map mys_2025 df)) (Py.series_max (map mys_2035 df)).
Proof. unfold baseline_max, adjust. now rewrite !map_map. Qed.

Lemma baseline_bounds (df : list merged) (delta : float) (m : merged) (v : float) :
  In m df -> v = mys_2025 m \/ v = mys_2035 m -> PrimFloat.is_nan v = false ->
  (v <? baseline_min (adjust df delta))%float = false /\
  (baseline_max (adjust df delta) <? v)%float = false.
Proof.
  intros I V N. rewrite baseline_min_adjust, baseline_max_adjust.
  destruct V as [-> | ->].
  - assert (J : In (mys_2025 m) (map mys_2025 df)) by now apply in_map.
    destruct (proj2 (series_min_spec _) _ J N) as [_ L].
    destruct (proj2 (series_max_spec _) _ J N) as [_ U].
    split; [now apply py_min_below_l | now apply py_max_above_l].
  - assert (J : In (mys_2035 m) (map mys_2035 df)) by now apply in_map.
    destruct (proj2 (series_min_spec _) _ J N) as [Nl L].
    destruct (proj2 (series_max_spec _) _ J N) as [Nu U].
    split; [now apply py_min_below_r | now apply py_max_above_r].
Qed.

(** C5. The colour range shared by the two baseline maps is the minimum
    of the two column minima and the maximum of the two column maxima of
    the unadjusted columns [mys_2025] and [mys_2035]: no number of either
    column lies below the lower end or above the upper end.  It does not
    depend on the slider value: two runs of the script on the same file
    that differ only in the slider value end with the same range (or with
    the same error). *)
Theorem colour_range_independent_of_delta
        (csv : DataFrame) (df : list merged) (d1 d2 : float) :
  baseline_min (adjust df d1) =
    Py.min (Py.series_min (map mys_2025 df)) (Py.series_min (map mys_2035 df)) /\
  baseline_max (adjust df d1) =
    Py.max (Py.series_max (map mys_2025 df)) (Py.series_max (map mys_2035 df)) /\
  Forall (fun m =>
            forall v, v = mys_2025 m \/ v = mys_2035 m ->
                      PrimFloat.is_nan v = false ->
                      (v <? baseline_min (adjust df d1))%float = false /\
                      (baseline_max (adjust df d1) <? v)%float = false) df /\
  (baseline_min (adjust df d1), baseline_max (adjust df d1)) =
    (baseline_min (adjust df d2), baseline_max (adjust df d2)) /\
  match app csv d1, app csv d2 with
  | Ok (_, range1), Ok (_, range2) => range1 = range2
  | Raise e1, Raise e2 => e1 = e2
  | _, _ => False
  end.
Proof.
  split; [apply baseline_min_adjust|]. split; [apply baseline_max_adjust|].
  split; [apply Forall_forall; intros m I v; now apply baseline_bounds|].
  split; [now rewrite !baseline_min_adjust, !baseline_max_adjust|].
  unfold app. destruct (load_mys csv) as [[m y]|e]; simpl; [|reflexivity].
  now rewrite !baseline_min_adjust, !baseline_max_adjust.
Qed.

(* ================================================================== *)
(** ** End to end *)
(* ================================================================== *)

(** C9 (with the sex cell "Both", as the code reads it).  On the two rows
    (XYZ, 1, Both, "15-24", 2025, 8.0) and (XYZ, 1, Both, "15-24", 2035,
    9.0) the loader detects the labels [1] and ["15-24"] and returns the
    single row (XYZ, 8.0, 9.0); the slider value 1.5 then gives the row
    (XYZ, 8.0, 9.0, 10.5, 2.5), with colour range (8.0, 9.0). *)
Theorem end_to_end_example :
  detect_ssp1 (Py.unique Py.eqb (map Csv.scenario (xyz_table "Both"))) = Ok (VInt 1) /\
  load_mys (xyz_table "Both") = Ok ([mkMerged "XYZ" 8.0 9.0]%float, VStr "15-24") /\
  adjust [mkMerged "XYZ" 8.0 9.0]%float 1.5%float =
    [mkAdjusted (mkMerged "XYZ" 8.0 9.0) 10.5 2.5]%float /\
  app (xyz_table "Both") 1.5%float =
    Ok ([mkAdjusted (mkMerged "XYZ" 8.0 9.0) 10.5 2.5]%float, (8.0, 9.0)%float).
Proof. repeat split; vm_compute; reflexivity. Qed.

(** C9 as stated (sex cell "both") fails: the filter keeps no row, and
    the script stops in [load_mys] with the missing-year error. *)
Lemma end_to_end_lowercase_both_counterexample :
  df_ssp1 (xyz_table "both") (VInt 1) (VStr "15-24") = [] /\
  app (xyz_table "both") 1.5%float = Raise (YearsNotFound []).
Proof. split; vm_compute; reflexivity. Qed.

(* ================================================================== *)
(** ** Composition of adjustments *)
(* ================================================================== *)

Lemma digits2_pos_size (m : positive) : digits2_pos m = Pos.size m.
Proof. induction m as [m IH | m IH |]; simpl; now rewrite ?IH. Qed.

Lemma digits2_pos_log2 (m : positive) :
  Z.pos (digits2_pos m) = Z.log2 (Z.pos m) + 1.
Proof.
  rewrite digits2_pos_size.
  destruct m as [m | m |]; simpl; rewrite ?Pos2Z.inj_succ; lia.
Qed.

(** The exponent of a finite float is determined by the position of the
    leading bit of its value, and is at least -1074. *)
Lemma finite_exponent (x : float) (s : bool) (m : positive) (e : Z) :
  Prim2SF x = S754_finite s m e ->
  e = Z.max (Z.log2 (Z.pos m) + 1 + e - 53) (-1074).
Proof.
  intros E. pose proof (Prim2SF_valid x) as V. rewrite E in V.
  unfold SpecFloat.valid_binary, bounded, canonical_mantissa in V.
  apply andb_true_iff in V as [V _]. apply Z.eqb_eq in V.
  rewrite digits2_pos_log2 in V. symmetry. exact V.
Qed.

Lemma scaled_finite_pos (x : float) (s : bool) (m : positive) (e : Z) :
  Prim2SF x = S754_finite s m e ->
  0 <= e + 1074 /\ 0 < Z.pos m * 2 ^ (e + 1074) /\
  Z.log2 (Z.pos m * 2 ^ (e + 1074)) + 1 - 1074 = Z.log2 (Z.pos m) + 1 + e.
Proof.
  intros E. pose proof (finite_exponent _ _ _ _ E) as C.
  assert (K : 0 <= e + 1074) by lia.
  split; [exact K|]. split.
  - apply Z.mul_pos_pos; [lia | now apply Z.pow_pos_nonneg].
  - rewrite Z.log2_mul_pow2 by lia. lia.
Qed.

Lemma cond_Zopp_scaled (s : bool) (m : positive) (k : Z) :
  cond_Zopp s (Z.pos m) * 2 ^ k =
  if s then - (Z.pos m * 2 ^ k) else Z.pos m * 2 ^ k.
Proof. destruct s; simpl cond_Zopp; lia. Qed.

(** Two finite or zero floats with the same scaled value hold the same
    number. *)
Lemma scaled_value_same (x y : float) (v : Z) :
  scaled_value x = Some v -> scaled_value y = Some v -> same_number x y = true.
Proof.
  unfold scaled_value. intros Hx Hy. apply same_number_of_SF.
  destruct (Prim2SF x) as [sx | sx | | sx mx ex] eqn:Ex; try discriminate;
    destruct (Prim2SF y) as [sy | sy | | sy my ey] eqn:Ey; try discriminate;
    injection Hx as Hx; injection Hy as Hy.
  - right. now exists sx, sy.
  - exfalso. destruct (scaled_finite_pos _ _ _ _ Ey) as (_ & P & _).
    rewrite cond_Zopp_scaled in Hy. destruct sy; lia.
  - exfalso. destruct (scaled_finite_pos _ _ _ _ Ex) as (_ & P & _).
    rewrite cond_Zopp_scaled in Hx. destruct sx; lia.
  - left. rewrite cond_Zopp_scaled in Hx, Hy.
    destruct (scaled_finite_pos _ _ _ _ Ex) as (Kx & Px & Lx).
    destruct (scaled_finite_pos _ _ _ _ Ey) as (Ky & Py & Ly).
    pose proof (finite_exponent _ _ _ _ Ex) as Cx.
    pose proof (finite_exponent _ _ _ _ Ey) as Cy.
    assert (S : sx = sy /\ Z.pos mx * 2 ^ (ex + 1074) = Z.pos my * 2 ^ (ey + 1074)).
    { destruct sx, sy; split; try reflexivity; lia. }
    destruct S as [-> V]. rewrite V in Lx.
    assert (ex = ey) by lia. subst ey.
    apply Z.mul_cancel_r in V; [| apply Z.pow_nonzero; lia].
    now injection V as ->.
Qed.

Lemma iter_pos_comm {A : Type} (f : A -> A) (p : positive) (x : A) :
  iter_pos f p (f x) = f (iter_pos f p x).
Proof.
  revert x. induction p as [p IH | p IH |]; intros x; simpl.
  - now rewrite !IH.
  - now rewrite !IH.
  - reflexivity.
Qed.

Lemma iter_pos_succ {A : Type} (f : A -> A) (p : positive) (x : A) :
  iter_pos f (Pos.succ p) x = iter_pos f p (f x).
Proof.
  revert x. induction p as [p IH | p IH |]; intros x; simpl.
  - rewrite !IH. now rewrite (iter_pos_comm f p (f x)).
  - reflexivity.
  - reflexivity.
Qed.

Lemma pos_iter_xO (m j : positive) :
  Z.pos (Pos.iter xO m j) = Z.pos m * 2 ^ Z.pos j.
Proof.
  induction j as [|j IH] using Pos.peano_ind.
  - simpl. lia.
  - rewrite Pos.iter_succ, Pos2Z.inj_xO, IH, Pos2Z.inj_succ, Z.pow_succ_r by lia.
    ring.
Qed.

Lemma shr_fexp_double (m : positive) (e : Z) :
  e <= fexp prec emax (Z.pos (digits2_pos m) + e) ->
  shr_fexp prec emax (Z.pos m~0) (e - 1) loc_Exact =
  shr_fexp prec emax (Z.pos m) e loc_Exact.
Proof.
  intros H. unfold shr_fexp. simpl Zdigits2. simpl digits2_pos.
  replace (Z.pos (Pos.succ (digits2_pos m)) + (e - 1))
    with (Z.pos (digits2_pos m) + e) by lia.
  set (fe := fexp prec emax (Z.pos (digits2_pos m) + e)) in *.
  unfold shr. simpl shr_record_of_loc.
  destruct (fe - e) as [|p|p] eqn:E; try lia.
  - replace (fe - (e - 1)) with 1 by lia. simpl. f_equal. lia.
  - replace (fe - (e - 1)) with (Z.pos (Pos.succ p)) by lia.
    rewrite iter_pos_succ. simpl. f_equal. lia.
Qed.

Lemma binary_round_double (sx : bool) (m : positive) (e : Z) :
  binary_round prec emax sx m~0 (e - 1) = binary_round prec emax sx m e.
Proof.
  unfold binary_round. simpl digits2_pos.
  replace (Z.pos (Pos.succ (digits2_pos m)) + (e - 1))
    with (Z.pos (digits2_pos m) + e) by lia.
  set (fe := fexp prec emax (Z.pos (digits2_pos m) + e)).
  unfold shl_align.
  destruct (fe - e) as [|p|p] eqn:E.
  - replace (fe - (e - 1)) with 1 by lia.
    unfold binary_round_aux. rewrite shr_fexp_double by (fold fe; lia).
    reflexivity.
  - replace (fe - (e - 1)) with (Z.pos (Pos.succ p)) by lia.
    unfold binary_round_aux. rewrite shr_fexp_double by (fold fe; lia).
    reflexivity.
  - destruct (fe - (e - 1)) as [|q|q] eqn:E'; try lia.
    + assert (p = 1%positive) by lia. subst p. simpl.
      replace fe with (e - 1) by lia. reflexivity.
    + assert (p = Pos.succ q) by lia. subst p.
      now rewrite Pos.iter_succ, <- Pos.iter_swap.
Qed.

Lemma binary_round_shift (sx : bool) (m j : positive) (e : Z) :
  binary_round prec emax sx (Pos.iter xO m j) (e - Z.pos j) =
  binary_round prec emax sx m e.
Proof.
  induction j as [|j IH] using Pos.peano_ind.
  - apply binary_round_double.
  - rewrite Pos.iter_succ.
    replace (e - Z.pos (Pos.succ j)) with (e - Z.pos j - 1) by lia.
    now rewrite binary_round_double.
Qed.

Lemma binary_normalize_shift (v e k : Z) (sz : bool) :
  0 <= k ->
  binary_normalize prec emax (v * 2 ^ k) (e - k) sz =
  binary_normalize prec emax v e sz.
Proof.
  intros K. destruct k as [|j|j]; try lia.
  - now rewrite Z.mul_1_r, Z.sub_0_r.
  - destruct v as [|m|m].
    + reflexivity.
    + rewrite <- pos_iter_xO. simpl. apply binary_round_shift.
    + change (Z.neg m) with (- Z.pos m). rewrite Z.mul_opp_l, <- pos_iter_xO.
      simpl. apply binary_round_shift.
Qed.

Lemma shr_fexp_canonical (m : positive) (e : Z) :
  fexp prec emax (Z.pos (digits2_pos m) + e) = e ->
  shr_fexp prec emax (Z.pos m) e loc_Exact =
  ({| shr_m := Z.pos m; shr_r := false; shr_s := false |}, e).
Proof.
  intros C. unfold shr_fexp. cbn [Zdigits2]. now rewrite C, Z.sub_diag.
Qed.

Lemma binary_round_canonical (s : bool) (m : positive) (e : Z) :
  bounded prec emax m e = true ->
  binary_round prec emax s m e = S754_finite s m e.
Proof.
  unfold bounded, canonical_mantissa. intros B.
  apply andb_true_iff in B as [C L]. apply Z.eqb_eq in C.
  unfold binary_round. rewrite C. unfold shl_align. rewrite Z.sub_diag.
  unfold binary_round_aux. rewrite (shr_fexp_canonical m e C).
  cbn [shr_m loc_of_shr_record round_nearest_even].
  rewrite (shr_fexp_canonical m e C). cbn [shr_m]. now rewrite L.
Qed.

Lemma shl_align_value (mx : positive) (ex ez : Z) :
  ez <= ex -> Z.pos (fst (shl_align mx ex ez)) = Z.pos mx * 2 ^ (ex - ez).
Proof.
  intros H. unfold shl_align. destruct (ez - ex) as [|p|p] eqn:E; try lia.
  - replace (ex - ez) with 0 by lia. simpl. lia.
  - replace (ex - ez) with (Z.pos p) by lia. simpl fst. apply pos_iter_xO.
Qed.

Lemma cond_Zopp_mul (s : bool) (a c : Z) : cond_Zopp s a * c = cond_Zopp s (a * c).
Proof. destruct s; simpl; lia. Qed.

Lemma bounded_exponent (m : positive) (e : Z) :
  bounded prec emax m e = true -> -1074 <= e.
Proof.
  unfold bounded, canonical_mantissa, fexp. intros B.
  apply andb_true_iff in B as [C _]. apply Z.eqb_eq in C.
  change (SpecFloat.emin prec emax) with (-1074) in C. lia.
Qed.

(** Addition is the rounding of the exact sum. *)
Lemma SF64add_round (x y : spec_float) (a b : Z) :
  valid_binary x = true -> valid_binary y = true ->
  sf_scaled x = Some a -> sf_scaled y = Some b ->
  SF_same (SF64add x y) (round_scaled (a + b)).
Proof.
  unfold SF_same, round_scaled.
  destruct x as [sx | sx | | sx mx ex], y as [sy | sy | | sy my ey];
    try discriminate; simpl valid_binary; intros Vx Vy [= <-] [= <-].
  - right. destruct sx, sy; simpl; eauto.
  - left. pose proof (bounded_exponent _ _ Vy).
    rewrite Z.add_0_l.
    replace (-1074) with (ey - (ey + 1074)) by lia.
    rewrite (binary_normalize_shift _ ey (ey + 1074)) by lia.
    destruct sy; simpl; now rewrite binary_round_canonical.
  - left. pose proof (bounded_exponent _ _ Vx).
    rewrite Z.add_0_r.
    replace (-1074) with (ex - (ex + 1074)) by lia.
    rewrite (binary_normalize_shift _ ex (ex + 1074)) by lia.
    destruct sx; simpl; now rewrite binary_round_canonical.
  - left. pose proof (bounded_exponent _ _ Vx). pose proof (bounded_exponent _ _ Vy).
    unfold SF64add, SFadd.
    set (ez := IntDef.Z.min ex ey).
    assert (Hz : ez = Z.min ex ey) by reflexivity.
    rewrite !shl_align_value by lia.
    replace (-1074) with (ez - (ez + 1074)) by lia.
    rewrite <- (binary_normalize_shift _ ez (ez + 1074) false) by lia.
    f_equal.
    rewrite Z.mul_add_distr_r, !cond_Zopp_mul, <- !Z.mul_assoc, <- !Z.pow_add_r by lia.
    now replace (ex - ez + (ez + 1074)) with (ex + 1074) by lia;
      replace (ey - ez + (ez + 1074)) with (ey + 1074) by lia.
Qed.

Lemma scaled_value_sf (x : float) : scaled_value x = sf_scaled (Prim2SF x).
Proof. reflexivity. Qed.

(** The result of a binary64 addition of two finite numbers depends only
    on their exact sum. *)
Lemma add_depends_on_sum (x y x' y' : float) (a b a' b' : Z) :
  scaled_value x = Some a -> scaled_value y = Some b ->
  scaled_value x' = Some a' -> scaled_value y' = Some b' ->
  a + b = a' + b' ->
  same_number (x + y)%float (x' + y')%float = true.
Proof.
  rewrite !scaled_value_sf. intros Hx Hy Hx' Hy' E.
  apply same_number_of_SF. rewrite !add_spec.
  pose proof (SF64add_round _ _ a b (Prim2SF_valid x) (Prim2SF_valid y) Hx Hy) as H.
  pose proof (SF64add_round _ _ a' b' (Prim2SF_valid x') (Prim2SF_valid y') Hx' Hy')
    as H'.
  rewrite <- E in H'.
  destruct H as [H | (s1 & s2 & H1 & H2)], H' as [H' | (s3 & s4 & H3 & H4)].
  - left. congruence.
  - right. exists s4, s3. split; congruence.
  - right. exists s1, s2. split; congruence.
  - right. now exists s1, s3.
Qed.

(** C8 (as binary64 allows it).  For every row, the simulated value for
    the slider value [d1 + d2] holds the same number as the simulated value
    for [d1] with [d2] added to it, provided that the two inner additions,
    [d1 + d2] and [mys_2035 + d1], are exact: both sides are then the
    rounding of the same real number, whether or not the outer additions
    round. *)
Theorem adjust_composes_when_exact (df : list merged) (d1 d2 : float) :
  exact_sum d1 d2 ->
  Forall (fun m => exact_sum (mys_2035 m) d1) df ->
  Forall2 (fun r12 r1 =>
             base r12 = base r1 /\
             same_number (mys_2035_sim r12) (mys_2035_sim r1 + d2)%float = true)
          (adjust df (d1 + d2)%float) (adjust df d1).
Proof.
  intros (a & b & Ha & Hb & Hab) H.
  induction H as [|m t (f & a' & Hf & Ha' & Hfa) _ IH]; simpl; constructor;
    [|exact IH].
  simpl. split; [reflexivity|].
  assert (a' = a) by congruence. subst a'.
  apply (add_depends_on_sum _ _ _ _ f (a + b) (f + a) b); try assumption. lia.
Qed.

(** Witness for C8: 2^-52 + 2^-53 and 1.0 + 2^-52 are exact, while
    (1.0 + 2^-52) + 2^-53 rounds. *)
Lemma adjust_composes_when_exact_witness :
  ~ exact_sum (1.0 + 0x1p-52)%float 0x1p-53%float /\
  Forall2 (fun r12 r1 =>
             base r12 = base r1 /\
             same_number (mys_2035_sim r12) (mys_2035_sim r1 + 0x1p-53)%float = true)
          (adjust [mkMerged "XYZ" 8.0 1.0]%float (0x1p-52 + 0x1p-53)%float)
          (adjust [mkMerged "XYZ" 8.0 1.0]%float 0x1p-52%float).
Proof.
  split.
  - intros (a & b & Ha & Hb & Hab).
    vm_compute in Ha, Hb. injection Ha as <-. injection Hb as <-.
    vm_compute in Hab. discriminate Hab.
  - apply adjust_composes_when_exact.
    + eexists _, _. repeat split; vm_compute; reflexivity.
    + constructor; [|constructor]. simpl.
      eexists _, _. repeat split; vm_compute; reflexivity.
Defined.

(** C8 as stated fails: with [mys_2035 = 9.0], [d1 = 0.1] and [d2 = 0.2]
    the value simulated for [d1 + d2] is 9.3000000000000007 while the value
    simulated for [d1], plus [d2], is 9.2999999999999989. *)
Lemma adjust_composition_counterexample :
  map mys_2035_sim (adjust [mkMerged "XYZ" 8.0 9.0]%float (0.1 + 0.2)%float)
    = [9.3000000000000007]%float /\
  map (fun r => (mys_2035_sim r + 0.2)%float)
      (adjust [mkMerged "XYZ" 8.0 9.0]%float 0.1%float)
    = [9.2999999999999989]%float /\
  same_number 9.3000000000000007 9.2999999999999989 = false /\
  (9.3000000000000007 =? 9.2999999999999989)%float = false.
Proof. repeat split; vm_compute; reflexivity. Qed.

(* ================================================================== *)
(** ** More on the age label *)
(* ================================================================== *)

(** Each direct pattern contains "15". *)
Lemma direct_mentions_15 (a : value) : Direct15_24 a -> Mentions15 a.
Proof.
  unfold Direct15_24, Mentions15, has_substring.
  intros [(pre & post & E) | [(pre & post & E) | (pre & post & E)]];
    rewrite E; exists pre.
  - now exists ("-24" ++ post).
  - now exists ("_24" ++ post).
  - now exists ("24" ++ post).
Qed.

Lemma youth_candidates_nil (age_vals : list value) :
  youth_candidates age_vals = [] <->
  Forall (fun a => ~ Mentions15 a) age_vals.
Proof.
  split.
  - intros E. unfold youth_candidates in E.
    destruct (filter is_15_24 age_vals) eqn:D; [|discriminate].
    apply filter_nil_Forall in E. eapply Forall_impl; [|exact E].
    intros a N M. apply N. now apply mentions_15_spec.
  - intros M.
    assert (N : Forall (fun a => ~ Direct15_24 a) age_vals).
    { eapply Forall_impl; [|exact M]. intros a Na D. now apply Na, direct_mentions_15. }
    rewrite (youth_candidates_fallback _ (Forall_not_direct _ N)).
    now apply Forall_not_mentions.
Qed.

Lemma youth_candidates_In (age_vals : list value) (a : value) :
  In a (youth_candidates age_vals) -> In a age_vals /\ Mentions15 a.
Proof.
  unfold youth_candidates.
  destruct (filter is_15_24 age_vals) as [|b rest] eqn:D.
  - intros I. apply filter_In in I as [I M]. split; [exact I|].
    now apply mentions_15_spec.
  - rewrite <- D. intros I. apply filter_In in I as [I M]. split; [exact I|].
    now apply direct_mentions_15, is_15_24_spec.
Qed.

(** X1. Age detection fails exactly when no distinct age value has "15"
    in its text, and succeeds exactly when some value has: the two loops
    of lines 41-52 together accept a value if and only if it mentions 15,
    because each direct pattern contains "15". *)
Theorem youth_detection_fails_iff (age_vals : list value) :
  (detect_youth age_vals = Raise (CannotDetectYouth age_vals) <->
   Forall (fun a => ~ Mentions15 a) age_vals) /\
  ((exists youth_age, detect_youth age_vals = Ok youth_age) <->
   (exists a, In a age_vals /\ Mentions15 a)).
Proof.
  unfold detect_youth. split; split.
  - intros E. apply youth_candidates_nil.
    now destruct (youth_candidates age_vals).
  - intros M. apply youth_candidates_nil in M. now rewrite M.
  - intros [y E]. destruct (youth_candidates age_vals) as [|b rest] eqn:C;
      [discriminate|].
    exists b. apply youth_candidates_In. rewrite C. now left.
  - intros (a & I & M).
    destruct (youth_candidates age_vals) as [|b rest] eqn:C; [|now exists b].
    exfalso. apply youth_candidates_nil in C.
    rewrite Forall_forall in C. now apply (C a).
Qed.

(** X2. The age label [load_mys] returns (and the page shows) is a value
    of the [age] column of the file, its text contains "15", and it carries
    one of the patterns "15-24", "15_24", "1524" whenever some age value of
    the file does: the fallback never overrides a direct match. *)
Theorem returned_age_label_is_sound
        (df : DataFrame) (df_merged : list merged) (youth_age : value) :
  load_mys df = Ok (df_merged, youth_age) ->
  (exists r, In r df /\ Csv.age r = youth_age) /\
  Mentions15 youth_age /\
  ((exists r, In r df /\ Direct15_24 (Csv.age r)) -> Direct15_24 youth_age).
Proof.
  intros E. apply load_mys_Ok in E as (label & _ & E & _).
  unfold detect_youth in E.
  destruct (youth_candidates (Py.unique Py.eqb (map Csv.age df)))
    as [|b rest] eqn:C; [discriminate|].
  injection E as ->.
  assert (I : In youth_age (youth_candidates (Py.unique Py.eqb (map Csv.age df))))
    by (rewrite C; now left).
  split; [|split].
  - apply youth_candidates_In in I as [I _].
    now apply (distinct_values_In Csv.age Py.eqb df youth_age py_eqb_eq).
  - now apply youth_candidates_In in I.
  - intros (r & Ir & D). unfold youth_candidates in C.
    destruct (filter is_15_24 (Py.unique Py.eqb (map Csv.age df)))
      as [|c rest'] eqn:F.
    + exfalso. apply filter_nil_Forall in F. rewrite Forall_forall in F.
      apply (F (Csv.age r)); [|now apply is_15_24_spec].
      apply (distinct_values_In Csv.age Py.eqb df _ py_eqb_eq). now exists r.
    + injection C as -> _. apply is_15_24_spec.
      assert (J : In youth_age (filter is_15_24 (Py.unique Py.eqb (map Csv.age df))))
        by (rewrite F; now left).
      now apply filter_In in J.
Qed.

(** Witness for X2: the two XYZ rows give the label "15-24". *)
Lemma returned_age_label_is_sound_witness :
  (exists r, In r (xyz_table "Both") /\ Csv.age r = VStr "15-24") /\
  Mentions15 (VStr "15-24") /\
  ((exists r, In r (xyz_table "Both") /\ Direct15_24 (Csv.age r)) ->
   Direct15_24 (VStr "15-24")).
Proof.
  exact (returned_age_label_is_sound (xyz_table "Both")
           [mkMerged "XYZ" 8.0 9.0]%float (VStr "15-24") eq_refl).
Defined.

(* ================================================================== *)
(** ** More on the scenario label *)
(* ================================================================== *)

Lemma isin_same_elements (x : value) (l l' : list value) :
  (forall v, In v l <-> In v l') -> Py.isin Py.eqb x l = Py.isin Py.eqb x l'.
Proof.
  intros S. destruct (Py.isin Py.eqb x l') eqn:E.
  - apply (isin_In _ _ py_eqb_eq). apply S. now apply (isin_In _ _ py_eqb_eq).
  - apply (isin_false _ _ py_eqb_eq). intros I. apply S in I.
    apply (isin_In _ _ py_eqb_eq) in I. congruence.
Qed.

Lemma detect_ssp1_same_elements (l l' : list value) (label : value) :
  (forall v, In v l <-> In v l') ->
  detect_ssp1 l = Ok label -> detect_ssp1 l' = Ok label.
Proof.
  intros S. unfold detect_ssp1.
  rewrite !(isin_same_elements _ l l' S).
  destruct (Py.isin Py.eqb (VInt 1) l'); [trivial|].
  destruct (Py.isin Py.eqb (VStr "SSP1") l'); [trivial|].
  destruct (Py.isin Py.eqb (VStr "1") l'); [trivial | discriminate].
Qed.

(** X3. The scenario label depends only on which values occur in the
    [scenario] column, not on the order or the number of the rows: two
    files whose scenario columns hold the same values get the same label,
    or both fail to get one.  The label found is always one of [1], "SSP1",
    "1" and occurs in the column. *)
Theorem scenario_label_ignores_row_order (df df' : DataFrame) :
  (forall v, In v (map Csv.scenario df) <-> In v (map Csv.scenario df')) ->
  (forall label,
      detect_ssp1 (Py.unique Py.eqb (map Csv.scenario df)) = Ok label <->
      detect_ssp1 (Py.unique Py.eqb (map Csv.scenario df')) = Ok label) /\
  (forall label,
      detect_ssp1 (Py.unique Py.eqb (map Csv.scenario df)) = Ok label ->
      In label (map Csv.scenario df) /\
      (label = VInt 1 \/ label = VStr "SSP1" \/ label = VStr "1")).
Proof.
  intros S.
  assert (U : forall v, In v (Py.unique Py.eqb (map Csv.scenario df)) <->
                        In v (Py.unique Py.eqb (map Csv.scenario df'))).
  { intros v. now rewrite !(unique_In _ Py.eqb py_eqb_eq). }
  split.
  - intros label. split; apply detect_ssp1_same_elements; [exact U|].
    intros v. symmetry. apply U.
  - intros label. unfold detect_ssp1.
    destruct (Py.isin Py.eqb (VInt 1) _) eqn:E1;
      [|destruct (Py.isin Py.eqb (VStr "SSP1") _) eqn:E2;
        [|destruct (Py.isin Py.eqb (VStr "1") _) eqn:E3; [|discriminate]]];
      intros [= <-];
      match goal with
      | H : Py.isin _ _ _ = true |- _ =>
          apply (proj1 (isin_In _ Py.eqb py_eqb_eq _ _)) in H;
          apply (proj1 (unique_In _ Py.eqb py_eqb_eq _ _)) in H
      end; split; auto.
Qed.

(** Witness for X3: two files whose scenario columns differ in order and
    in the number of rows but hold the same values, [1] and "SSP1". *)
Lemma scenario_label_ignores_row_order_witness :
  map Csv.scenario mixed_scenarios <> map Csv.scenario mixed_scenarios_shuffled /\
  (detect_ssp1 (Py.unique Py.eqb (map Csv.scenario mixed_scenarios)) = Ok (VInt 1) <->
   detect_ssp1 (Py.unique Py.eqb (map Csv.scenario mixed_scenarios_shuffled))
     = Ok (VInt 1)).
Proof.
  split; [discriminate|].
  refine (proj1 (scenario_label_ignores_row_order
                   mixed_scenarios mixed_scenarios_shuffled _) (VInt 1)).
  intros v. simpl. tauto.
Defined.

(* ================================================================== *)
(** ** What each error tells about the file *)
(* ================================================================== *)

Lemma detect_ssp1_Raise (scen_vals : list value) (e : ValueError) :
  detect_ssp1 scen_vals = Raise e ->
  e = CannotDetectSSP1 scen_vals /\
  ~ In (VInt 1) scen_vals /\ ~ In (VStr "SSP1") scen_vals /\
  ~ In (VStr "1") scen_vals.
Proof.
  unfold detect_ssp1.
  destruct (Py.isin Py.eqb (VInt 1) scen_vals) eqn:E1; [discriminate|].
  destruct (Py.isin Py.eqb (VStr "SSP1") scen_vals) eqn:E2; [discriminate|].
  destruct (Py.isin Py.eqb (VStr "1") scen_vals) eqn:E3; [discriminate|].
  intros [= <-]. repeat split; now apply (isin_false _ Py.eqb py_eqb_eq).
Qed.

Lemma detect_youth_Raise (age_vals : list value) (e : ValueError) :
  detect_youth age_vals = Raise e ->
  e = CannotDetectYouth age_vals /\ Forall (fun a => ~ Mentions15 a) age_vals.
Proof.
  unfold detect_youth.
  destruct (youth_candidates age_vals) eqn:C; [|discriminate].
  intros [= <-]. split; [reflexivity | now apply youth_candidates_nil].
Qed.

Lemma build_tables_Raise (sub : DataFrame) (e : ValueError) :
  build_tables sub = Raise e ->
  (e = YearsNotFound (years_available sub) /\
   (~ In 2025 (map Csv.year sub) \/ ~ In 2035 (map Csv.year sub))) \/
  (e = NoOverlappingCountries /\
   In 2025 (map Csv.year sub) /\ In 2035 (map Csv.year sub) /\
   merge (year_table 2025 sub) (year_table 2035 sub) = []).
Proof.
  intros E.
  destruct (in_dec Z.eq_dec 2025 (map Csv.year sub)) as [H1 | N1];
    [| left; rewrite build_tables_missing_year in E by (now left);
       injection E as <-; split; [reflexivity | now left]].
  destruct (in_dec Z.eq_dec 2035 (map Csv.year sub)) as [H2 | N2];
    [| left; rewrite build_tables_missing_year in E by (now right);
       injection E as <-; split; [reflexivity | now right]].
  right. rewrite (build_tables_years_present _ H1 H2) in E.
  destruct (merge (year_table 2025 sub) (year_table 2035 sub)); [|discriminate].
  injection E as <-. now repeat split.
Qed.

(** X4. Every error of [load_mys] is raised for the reason its message
    gives, and in this order of checks.  The SSP1 error lists the distinct
    scenario values, none of which is [1], "SSP1" or "1".  The age error
    comes only after a scenario label was found and lists the distinct age
    values, none of which mentions 15.  The missing-year error comes only
    after both labels were found and lists the years of their slice, which
    lack 2025 or 2035.  The no-overlap error means that the slice has rows
    in both years but no country with a row in each. *)
Theorem load_mys_error_diagnosis (df : DataFrame) (e : ValueError) :
  load_mys df = Raise e ->
  match e with
  | CannotDetectSSP1 scen_vals =>
      scen_vals = Py.unique Py.eqb (map Csv.scenario df) /\
      ~ In (VInt 1) (map Csv.scenario df) /\
      ~ In (VStr "SSP1") (map Csv.scenario df) /\
      ~ In (VStr "1") (map Csv.scenario df)
  | CannotDetectYouth age_vals =>
      age_vals = Py.unique Py.eqb (map Csv.age df) /\
      (exists label,
          detect_ssp1 (Py.unique Py.eqb (map Csv.scenario df)) = Ok label) /\
      (forall r, In r df -> ~ Mentions15 (Csv.age r))
  | YearsNotFound years =>
      exists label youth,
        detect_ssp1 (Py.unique Py.eqb (map Csv.scenario df)) = Ok label /\
        detect_youth (Py.unique Py.eqb (map Csv.age df)) = Ok youth /\
        years = years_available (df_ssp1 df label youth) /\
        (~ In 2025 years \/ ~ In 2035 years)
  | NoOverlappingCountries =>
      exists label youth,
        detect_ssp1 (Py.unique Py.eqb (map Csv.scenario df)) = Ok label /\
        detect_youth (Py.unique Py.eqb (map Csv.age df)) = Ok youth /\
        let sub := df_ssp1 df label youth in
        In 2025 (map Csv.year sub) /\ In 2035 (map Csv.year sub) /\
        forall c,
          ~ ((exists r, In r sub /\ Csv.year r = 2025 /\ Csv.iso3 r = c) /\
             (exists r, In r sub /\ Csv.year r = 2035 /\ Csv.iso3 r = c))
  end.
Proof.
  unfold load_mys. intros E.
  destruct (detect_ssp1 _) as [label|e1] eqn:E1; simpl in E.
  2:{ injection E as <-. apply detect_ssp1_Raise in E1 as (-> & N1 & N2 & N3).
      rewrite !(unique_In _ Py.eqb py_eqb_eq) in N1, N2, N3. now repeat split. }
  destruct (detect_youth _) as [youth|e2] eqn:E2; simpl in E.
  2:{ injection E as <-. apply detect_youth_Raise in E2 as (-> & M).
      split; [reflexivity|]. split; [now exists label|].
      intros r I. rewrite Forall_forall in M. apply M.
      apply (unique_In _ Py.eqb py_eqb_eq). now apply in_map. }
  destruct (build_tables _) as [m|e3] eqn:E3; simpl in E; [discriminate|].
  injection E as <-.
  apply build_tables_Raise in E3 as [(-> & H) | (-> & H1 & H2 & M)].
  - exists label, youth. repeat split; try assumption.
    now rewrite !years_available_In.
  - exists label, youth. repeat split; try assumption.
    intros c. rewrite <- !year_table_key. revert c. now apply merge_nil_iff.
Qed.

(** Witness for X4: the missing-year error of [table_2020_2030]. *)
Lemma load_mys_error_diagnosis_witness :
  exists label youth,
    detect_ssp1 (Py.unique Py.eqb (map Csv.scenario table_2020_2030)) = Ok label /\
    detect_youth (Py.unique Py.eqb (map Csv.age table_2020_2030)) = Ok youth /\
    [2020; 2030] = years_available (df_ssp1 table_2020_2030 label youth) /\
    (~ In 2025 [2020; 2030] \/ ~ In 2035 [2020; 2030]).
Proof.
  exact (load_mys_error_diagnosis table_2020_2030 (YearsNotFound [2020; 2030]) eq_refl).
Defined.

(* ================================================================== *)
(** ** A slice with unique keys *)
(* ================================================================== *)

Lemma key_count_zero {A : Type} (f : A -> string) (c : string) (l : list A) :
  ~ In c (map f l) -> filter (fun x => String.eqb (f x) c) l = [].
Proof.
  intros N. apply filter_nil_Forall, Forall_forall. intros x I E.
  apply String.eqb_eq in E. apply N. subst c. now apply in_map.
Qed.

Lemma NoDup_key_count {A : Type} (f : A -> string) (l : list A) :
  NoDup (map f l) <->
  forall c, (List.length (filter (fun x => String.eqb (f x) c) l) <= 1)%nat.
Proof.
  induction l as [|x t IH]; simpl.
  - split; [intros _ c; simpl; lia | constructor].
  - split.
    + intros D c. inversion D as [|k ks Nk Dt]; subst.
      destruct (String.eqb (f x) c) eqn:E; simpl.
      * apply String.eqb_eq in E. subst c.
        rewrite (key_count_zero f (f x) t Nk). simpl. lia.
      * now apply IH.
    + intros C. constructor.
      * intros I. specialize (C (f x)). rewrite String.eqb_refl in C. simpl in C.
        apply in_map_iff in I as (y & Ey & Iy).
        assert (J : In y (filter (fun z => String.eqb (f z) (f x)) t)).
        { apply filter_In. split; [exact Iy | now apply String.eqb_eq]. }
        destruct (filter (fun z => String.eqb (f z) (f x)) t); [contradiction|].
        simpl in C. lia.
      * apply IH. intros c. specialize (C c).
        destruct (String.eqb (f x) c); simpl in C; lia.
Qed.

Lemma count_rows_unique_key (c : string) (y : Z) (sub : DataFrame) :
  NoDup (map (fun r => (Csv.iso3 r, Csv.year r)) sub) ->
  (count_rows c y sub <= 1)%nat.
Proof.
  unfold count_rows. induction sub as [|r t IH]; simpl; [lia|].
  intros D. inversion D as [|k ks Nk Dt]; subst.
  destruct (String.eqb (Csv.iso3 r) c && (Csv.year r =? y)) eqn:E; simpl;
    [|now apply IH].
  apply andb_true_iff in E as [Ec Ey].
  apply String.eqb_eq in Ec. apply Z.eqb_eq in Ey.
  replace (filter (fun r0 => String.eqb (Csv.iso3 r0) c && (Csv.year r0 =? y)) t)
    with (@nil Csv.row); [simpl; lia|].
  symmetry. apply filter_nil_Forall, Forall_forall. intros r' I E'.
  apply andb_true_iff in E' as [Ec' Ey'].
  apply String.eqb_eq in Ec'. apply Z.eqb_eq in Ey'.
  apply Nk, in_map_iff. exists r'. split; [|exact I]. congruence.
Qed.

Lemma NoDup_map_functional {A B : Type} (f : A -> B) (l : list A) (x y : A) :
  NoDup (map f l) -> In x l -> In y l -> f x = f y -> x = y.
Proof.
  induction l as [|z t IH]; simpl; [contradiction|].
  intros D. inversion D as [|k ks Nk Dt]; subst.
  intros [-> | Ix] [-> | Iy] E; auto.
  - exfalso. apply Nk. rewrite E. now apply in_map.
  - exfalso. apply Nk. rewrite <- E. now apply in_map.
Qed.

(** X5. When the (country, year) pairs of the slice are all different,
    the table [load_mys] returns has one row per country: no [iso3] occurs
    twice in it, so the two values of a country are determined by the
    country, and the table has no more rows than the slice has 2025 rows. *)
Theorem unique_keys_give_one_row_per_country
        (df : DataFrame) (df_merged : list merged) (label youth : value) :
  load_mys df = Ok (df_merged, youth) ->
  detect_ssp1 (Py.unique Py.eqb (map Csv.scenario df)) = Ok label ->
  NoDup (map (fun r => (Csv.iso3 r, Csv.year r)) (df_ssp1 df label youth)) ->
  NoDup (map iso3 df_merged) /\
  (forall m1 m2, In m1 df_merged -> In m2 df_merged ->
                 iso3 m1 = iso3 m2 -> m1 = m2) /\
  (List.length df_merged <=
   List.length (year_table 2025 (df_ssp1 df label youth)))%nat.
Proof.
  intros E El D. apply load_mys_Ok in E as (label' & El' & _ & E).
  assert (label' = label) by congruence. subst label'.
  apply build_tables_Ok in E as (_ & _ & -> & _).
  set (sub := df_ssp1 df label youth) in *.
  assert (N : NoDup (map iso3 (merge (year_table 2025 sub) (year_table 2035 sub)))).
  { apply NoDup_key_count. intros c.
    fold (count_merged c (merge (year_table 2025 sub) (year_table 2035 sub))).
    rewrite merge_count, !year_table_count.
    pose proof (count_rows_unique_key c 2025 sub D).
    pose proof (count_rows_unique_key c 2035 sub D). nia. }
  split; [exact N|]. split.
  - intros m1 m2 I1 I2. now apply (NoDup_map_functional iso3 _ m1 m2 N).
  - rewrite <- (length_map iso3), <- (length_map fst (year_table 2025 sub)).
    apply NoDup_incl_length; [exact N|].
    intros c I. now apply merge_keys in I.
Qed.

(** Witness for X5: the A, B, C / B, C, D table has unique keys. *)
Lemma unique_keys_give_one_row_per_country_witness :
  NoDup (map iso3 [mkMerged "B" 2.0 2.5; mkMerged "C" 3.0 3.5]%float) /\
  (forall m1 m2,
      In m1 [mkMerged "B" 2.0 2.5; mkMerged "C" 3.0 3.5]%float ->
      In m2 [mkMerged "B" 2.0 2.5; mkMerged "C" 3.0 3.5]%float ->
      iso3 m1 = iso3 m2 -> m1 = m2) /\
  (List.length [mkMerged "B" 2.0 2.5; mkMerged "C" 3.0 3.5]%float <=
   List.length (year_table 2025 (df_ssp1 (abc_bcd "Both") (VInt 1) (VStr "15-24"))))%nat.
Proof.
  apply (unique_keys_give_one_row_per_country (abc_bcd "Both") _ (VInt 1) (VStr "15-24"));
    [reflexivity | reflexivity |].
  simpl. repeat constructor; simpl; intuition discriminate.
Defined.

(* ================================================================== *)
(** ** Missing metric values *)
(* ================================================================== *)

Lemma ltb_nan_l (x y : float) : PrimFloat.is_nan x = true -> (x <? y)%float = false.
Proof.
  intros N. apply is_nan_SF in N. now rewrite ltb_spec, N.
Qed.

Lemma add_nan_l (x y : float) :
  PrimFloat.is_nan x = true -> PrimFloat.is_nan (x + y)%float = true.
Proof.
  intros N. apply is_nan_SF in N. apply is_nan_SF. now rewrite add_spec, N.
Qed.

Lemma add_nan_r (x y : float) :
  PrimFloat.is_nan y = true -> PrimFloat.is_nan (x + y)%float = true.
Proof.
  intros N. apply is_nan_SF in N. apply is_nan_SF. rewrite add_spec, N.
  now destruct (Prim2SF x).
Qed.

Lemma sub_nan_l (x y : float) :
  PrimFloat.is_nan x = true -> PrimFloat.is_nan (x - y)%float = true.
Proof.
  intros N. apply is_nan_SF in N. apply is_nan_SF. now rewrite sub_spec, N.
Qed.

Lemma sub_nan_r (x y : float) :
  PrimFloat.is_nan y = true -> PrimFloat.is_nan (x - y)%float = true.
Proof.
  intros N. apply is_nan_SF in N. apply is_nan_SF. rewrite sub_spec, N.
  now destruct (Prim2SF x).
Qed.

(** X6. A missing value (NaN) stays missing through lines 134-137, for
    every slider value: a row without a 2035 value has neither a simulated
    value nor a difference, and a row without a 2025 value has no
    difference; no row is dropped or filled for it. *)
Theorem missing_values_stay_missing (df : list merged) (delta : float) :
  List.length (adjust df delta) = List.length df /\
  Forall (fun r =>
            (PrimFloat.is_nan (mys_2035 (base r)) = true ->
             PrimFloat.is_nan (mys_2035_sim r) = true /\
             PrimFloat.is_nan (delta_2035_2025 r) = true) /\
            (PrimFloat.is_nan (mys_2025 (base r)) = true ->
             PrimFloat.is_nan (delta_2035_2025 r) = true))
         (adjust df delta).
Proof.
  split; [unfold adjust; apply length_map|].
  apply Forall_forall. intros r I. apply adjust_In in I as (m & _ & ->). simpl.
  split.
  - intros N. split; [now apply add_nan_l | now apply sub_nan_l, add_nan_l].
  - intros N. now apply sub_nan_r.
Qed.

Lemma series_min_all_nan (s : list float) :
  Forall (fun x => PrimFloat.is_nan x = true) s ->
  PrimFloat.is_nan (Py.series_min s) = true.
Proof.
  intros A. destruct (proj1 (series_min_spec s)) as [N | I]; [exact N|].
  rewrite Forall_forall in A. now apply A.
Qed.

Lemma series_max_all_nan (s : list float) :
  Forall (fun x => PrimFloat.is_nan x = true) s ->
  PrimFloat.is_nan (Py.series_max s) = true.
Proof.
  intros A. destruct (proj1 (series_max_spec s)) as [N | I]; [exact N|].
  rewrite Forall_forall in A. now apply A.
Qed.

Lemma py_min_number (a b : float) :
  PrimFloat.is_nan a = false -> PrimFloat.is_nan (Py.min a b) = false.
Proof.
  intros N. unfold Py.min. destruct (b <? a)%float eqn:C; [|exact N].
  destruct (PrimFloat.is_nan b) eqn:Nb; [|reflexivity].
  rewrite (ltb_nan_l b a Nb) in C. discriminate.
Qed.

Lemma py_max_number (a b : float) :
  PrimFloat.is_nan a = false -> PrimFloat.is_nan (Py.max a b) = false.
Proof.
  intros N. unfold Py.max. destruct (a <? b)%float eqn:C; [|exact N].
  destruct (PrimFloat.is_nan b) eqn:Nb; [|reflexivity].
  rewrite (ltb_nan_r a b Nb) in C. discriminate.
Qed.

(** X7. The colour range of lines 161-162 is a pair of numbers with
    lower end <= upper end as soon as one row has a 2025 value; when no row
    has one (all cells NaN, or no row at all) both ends are NaN, whatever
    the 2035 column holds, because [min(a, b)] and [max(a, b)] return their
    first argument when it is NaN. *)
Theorem colour_range_is_well_formed (df : list merged) (delta : float) :
  ((exists m, In m df /\ PrimFloat.is_nan (mys_2025 m) = false) ->
   PrimFloat.is_nan (baseline_min (adjust df delta)) = false /\
   PrimFloat.is_nan (baseline_max (adjust df delta)) = false /\
   (baseline_max (adjust df delta) <? baseline_min (adjust df delta))%float = false) /\
  (Forall (fun m => PrimFloat.is_nan (mys_2025 m) = true) df ->
   PrimFloat.is_nan (baseline_min (adjust df delta)) = true /\
   PrimFloat.is_nan (baseline_max (adjust df delta)) = true).
Proof.
  split.
  - intros (m & I & N).
    destruct (baseline_bounds df delta m (mys_2025 m) I (or_introl eq_refl) N)
      as [L U].
    rewrite baseline_min_adjust, baseline_max_adjust in *.
    assert (J : In (mys_2025 m) (map mys_2025 df)) by now apply in_map.
    destruct (proj2 (series_min_spec _) _ J N) as [Nl _].
    destruct (proj2 (series_max_spec _) _ J N) as [Nu _].
    split; [now apply py_min_number|]. split; [now apply py_max_number|].
    now apply (ltb_not_trans _ (mys_2025 m)).
  - intros A. rewrite baseline_min_adjust, baseline_max_adjust.
    assert (A' : Forall (fun x => PrimFloat.is_nan x = true) (map mys_2025 df)).
    { apply Forall_forall. intros x Ix. apply in_map_iff in Ix as (m & <- & Im).
      rewrite Forall_forall in A. now apply A. }
    pose proof (series_min_all_nan _ A') as Nl.
    pose proof (series_max_all_nan _ A') as Nu.
    unfold Py.min, Py.max.
    now rewrite (ltb_nan_r _ _ Nl), (ltb_nan_l _ _ Nu).
Qed.

(* ================================================================== *)
(** ** Rows that do not count *)
(* ================================================================== *)

Section UniqueAppend.

Variable A : Type.
Variable eq : A -> A -> bool.
Hypothesis eq_spec : forall x y, eq x y = true <-> x = y.

Lemma isin_cons (y x : A) (t : list A) :
  Py.isin eq y (x :: t) = eq x y || Py.isin eq y t.
Proof.
  unfold Py.isin. simpl. f_equal.
  destruct (eq y x) eqn:E1, (eq x y) eqn:E2; try reflexivity.
  - apply eq_spec in E1. subst. assert (eq x x = true) by now apply eq_spec.
    congruence.
  - apply eq_spec in E2. subst. assert (eq y y = true) by now apply eq_spec.
    congruence.
Qed.

(** Values met later are appended to the distinct values, unless already
    seen. *)
Lemma unique_app (l l' : list A) :
  Py.unique eq (l ++ l')%list =
  (Py.unique eq l ++ filter (fun y => negb (Py.isin eq y l)) (Py.unique eq l'))%list.
Proof.
  induction l as [|x t IH]; simpl.
  - symmetry. apply filter_true.
  - f_equal. rewrite IH, filter_app, filter_twice. f_equal.
    apply filter_ext. intros y. rewrite <- negb_orb. f_equal.
    symmetry. apply isin_cons.
Qed.

Lemma unique_app_known (l l' : list A) :
  Forall (fun y => In y l) l' -> Py.unique eq (l ++ l')%list = Py.unique eq l.
Proof.
  intros K. rewrite unique_app.
  replace (filter (fun y => negb (Py.isin eq y l)) (Py.unique eq l')) with (@nil A);
    [apply app_nil_r|].
  symmetry. apply filter_nil_Forall, Forall_forall. intros y I E.
  apply (proj1 (unique_In _ eq eq_spec _ _)) in I. rewrite Forall_forall in K.
  apply K in I. apply (proj2 (isin_In _ eq eq_spec _ _)) in I.
  rewrite I in E. discriminate.
Qed.

End UniqueAppend.

Lemma filter_app_none {A : Type} (f : A -> bool) (l l' : list A) :
  Forall (fun x => f x = false) l' -> filter f (l ++ l')%list = filter f l.
Proof.
  intros N. rewrite filter_app.
  replace (filter f l') with (@nil A); [apply app_nil_r|].
  symmetry. apply filter_nil_Forall. eapply Forall_impl; [|exact N].
  intros x E. congruence.
Qed.

Lemma in_slice_other_sex (label youth : value) (r : Csv.row) :
  Csv.sex r <> VStr "Both" -> in_slice label youth r = false.
Proof.
  intros N. unfold in_slice.
  destruct (Py.eqb (Csv.sex r) (VStr "Both")) eqn:E.
  - apply py_eqb_eq in E. contradiction.
  - now rewrite andb_false_r.
Qed.

(** X8. Rows of the other sexes do not count: appending to the file any
    rows whose sex is not "Both", and whose scenario and age values already
    occur in the file, changes neither the result of [load_mys] nor its
    error. *)
Theorem other_sex_rows_do_not_count (df more : DataFrame) :
  Forall (fun r => Csv.sex r <> VStr "Both" /\
                   In (Csv.scenario r) (map Csv.scenario df) /\
                   In (Csv.age r) (map Csv.age df)) more ->
  load_mys (df ++ more)%list = load_mys df.
Proof.
  intros H. unfold load_mys. rewrite !map_app.
  rewrite (unique_app_known _ Py.eqb py_eqb_eq (map Csv.scenario df)),
          (unique_app_known _ Py.eqb py_eqb_eq (map Csv.age df)).
  - destruct (detect_ssp1 _) as [label|]; simpl; [|reflexivity].
    destruct (detect_youth _) as [youth|]; simpl; [|reflexivity].
    unfold df_ssp1. rewrite filter_app_none; [reflexivity|].
    eapply Forall_impl; [|exact H]. intros r (N & _).
    now apply in_slice_other_sex.
  - apply Forall_forall. intros a I. apply in_map_iff in I as (r & <- & Ir).
    rewrite Forall_forall in H. now apply H.
  - apply Forall_forall. intros a I. apply in_map_iff in I as (r & <- & Ir).
    rewrite Forall_forall in H. now apply H.
Qed.

(** Witness for X8: a "Male" row after the two XYZ rows. *)
Lemma other_sex_rows_do_not_count_witness :
  load_mys (xyz_table "Both" ++ [sample_row "Male" "XYZ" 2025 7.0%float])%list
  = load_mys (xyz_table "Both").
Proof.
  apply other_sex_rows_do_not_count.
  constructor; [|constructor].
  split; [discriminate|]. split; simpl; auto.
Defined.

Lemma year_table_app_none (y : Z) (sub more : DataFrame) :
  Forall (fun r => Csv.year r <> y) more ->
  year_table y (sub ++ more)%list = year_table y sub.
Proof.
  intros N. unfold year_table. rewrite filter_app_none; [reflexivity|].
  eapply Forall_impl; [|exact N]. intros r H. now apply Z.eqb_neq.
Qed.

(** X9. Rows of other years do not change a result: when [load_mys]
    returns a table, appending rows whose year is neither 2025 nor 2035,
    and whose scenario and age values already occur in the file, gives the
    same table and the same age label. *)
Theorem other_year_rows_keep_the_result
        (df more : DataFrame) (df_merged : list merged) (youth : value) :
  load_mys df = Ok (df_merged, youth) ->
  Forall (fun r => Csv.year r <> 2025 /\ Csv.year r <> 2035 /\
                   In (Csv.scenario r) (map Csv.scenario df) /\
                   In (Csv.age r) (map Csv.age df)) more ->
  load_mys (df ++ more)%list = Ok (df_merged, youth).
Proof.
  intros E H. apply load_mys_Ok in E as (label & E1 & E2 & E3).
  unfold load_mys. rewrite !map_app.
  rewrite (unique_app_known _ Py.eqb py_eqb_eq (map Csv.scenario df)),
          (unique_app_known _ Py.eqb py_eqb_eq (map Csv.age df)).
  - rewrite E1, E2. simpl.
    apply build_tables_Ok in E3 as (Y1 & Y2 & -> & NE).
    unfold df_ssp1. rewrite filter_app. fold (df_ssp1 df label youth).
    set (sub := df_ssp1 df label youth) in *.
    set (rest := filter (in_slice label youth) more).
    assert (R : Forall (fun r => Csv.year r <> 2025 /\ Csv.year r <> 2035) rest).
    { apply Forall_forall. intros r I. apply filter_In in I as [I _].
      rewrite Forall_forall in H. destruct (H r I) as (A1 & A2 & _). now split. }
    rewrite build_tables_years_present.
    + rewrite !year_table_app_none.
      * destruct (merge (year_table 2025 sub) (year_table 2035 sub));
          [contradiction | reflexivity].
      * eapply Forall_impl; [|exact R]. now intros r [_ ?].
      * eapply Forall_impl; [|exact R]. now intros r [? _].
    + rewrite map_app. apply in_or_app. now left.
    + rewrite map_app. apply in_or_app. now left.
  - apply Forall_forall. intros a I. apply in_map_iff in I as (r & <- & Ir).
    rewrite Forall_forall in H. now apply H.
  - apply Forall_forall. intros a I. apply in_map_iff in I as (r & <- & Ir).
    rewrite Forall_forall in H. now apply H.
Qed.

(** Witness for X9: a 2030 row after the two XYZ rows. *)
Lemma other_year_rows_keep_the_result_witness :
  load_mys (xyz_table "Both" ++ [sample_row "Both" "XYZ" 2030 8.5%float])%list
  = Ok ([mkMerged "XYZ" 8.0 9.0]%float, VStr "15-24").
Proof.
  apply other_year_rows_keep_the_result; [reflexivity|].
  constructor; [|constructor].
  split; [discriminate|]. split; [discriminate|]. split; simpl; auto.
Defined.

(* ================================================================== *)
(** ** The maps at the default slider value *)
(* ================================================================== *)

Ltac by_float_eq_cases a b c :=
  unfold SFeqb, SFltb, SFcompare;
  destruct a as [[|] | [|] | | [|] ? ?], b as [[|] | [|] | | [|] ? ?],
           c as [[|] | [|] | | [|] ? ?];
  intros; try reflexivity; try discriminate;
  compare_cases; simpl in *; try reflexivity; try discriminate;
  subst; try lia.

Lemma SFltb_eq_l (a b c : spec_float) :
  SFeqb a b = true -> SFltb a c = SFltb b c.
Proof. by_float_eq_cases a b c. Qed.

Lemma SFltb_eq_r (a b c : spec_float) :
  SFeqb a b = true -> SFltb c a = SFltb c b.
Proof. by_float_eq_cases a b c. Qed.

(** Equal numbers compare alike with any third one. *)
Lemma same_number_ltb (x y z : float) :
  same_number x y = true ->
  (x <? z)%float = (y <? z)%float /\ (z <? x)%float = (z <? y)%float.
Proof.
  unfold same_number. intros H. apply orb_true_iff in H as [E | N].
  - rewrite eqb_spec in E. rewrite !ltb_spec.
    split; [now apply SFltb_eq_l | now apply SFltb_eq_r].
  - apply andb_true_iff in N as [Nx Ny].
    now rewrite (ltb_nan_l x z Nx), (ltb_nan_l y z Ny),
      (ltb_nan_r z x Nx), (ltb_nan_r z y Ny).
Qed.

Ltac by_two_float_cases a b :=
  unfold SFleb, SFltb, SFcompare;
  destruct a as [[|] | [|] | | [|] ? ?], b as [[|] | [|] | | [|] ? ?];
  intros; try reflexivity; try discriminate; try congruence;
  compare_cases; simpl in *; try reflexivity; try discriminate;
  subst; try lia.

(** Between two numbers, "not below" is "at least". *)
Lemma SFleb_of_not_ltb (a b : spec_float) :
  a <> S754_nan -> b <> S754_nan -> SFltb a b = false -> SFleb b a = true.
Proof. by_two_float_cases a b. Qed.

Lemma leb_of_not_ltb (x y : float) :
  PrimFloat.is_nan x = false -> PrimFloat.is_nan y = false ->
  (x <? y)%float = false -> (y <=? x)%float = true.
Proof.
  rewrite ltb_spec, leb_spec. intros Nx Ny.
  apply SFleb_of_not_ltb; intros E; apply is_nan_SF in E; congruence.
Qed.

(** Both ends of the range are numbers once a row has a 2025 value. *)
Lemma baseline_ends_are_numbers (df : list merged) (delta : float) (m : merged) :
  In m df -> PrimFloat.is_nan (mys_2025 m) = false ->
  PrimFloat.is_nan (baseline_min (adjust df delta)) = false /\
  PrimFloat.is_nan (baseline_max (adjust df delta)) = false.
Proof.
  intros I N. rewrite baseline_min_adjust, baseline_max_adjust.
  assert (J : In (mys_2025 m) (map mys_2025 df)) by now apply in_map.
  destruct (proj2 (series_min_spec _) _ J N) as [Nl _].
  destruct (proj2 (series_max_spec _) _ J N) as [Nu _].
  split; [now apply py_min_number | now apply py_max_number].
Qed.

(** X10. At the slider's default value 0.0 nothing is off the colour
    scale, provided that at least one row has a 2025 value that is a number
    (otherwise the range is NaN, see X7): every 2025 value and every
    simulated 2035 value that is a number is at least the lower end and at
    most the upper end of the shared colour range. *)
Theorem default_slider_keeps_maps_on_scale (df : list merged) :
  (exists m, In m df /\ PrimFloat.is_nan (mys_2025 m) = false) ->
  Forall (fun r =>
            forall v, v = mys_2025 (base r) \/ v = mys_2035_sim r ->
                      PrimFloat.is_nan v = false ->
                      (baseline_min (adjust df 0%float) <=? v)%float = true /\
                      (v <=? baseline_max (adjust df 0%float))%float = true)
         (adjust df 0%float).
Proof.
  intros (m0 & I0 & N0).
  destruct (baseline_ends_are_numbers df 0%float m0 I0 N0) as [Nmin Nmax].
  apply Forall_forall. intros r I v V N.
  assert (B : (v <? baseline_min (adjust df 0%float))%float = false /\
              (baseline_max (adjust df 0%float) <? v)%float = false).
  { apply adjust_In in I as (m & Im & ->). simpl in V.
    destruct V as [-> | ->].
    - now apply (baseline_bounds df 0%float m); [|left|].
    - pose proof (add_zero_same (mys_2035 m)) as S.
      assert (N' : PrimFloat.is_nan (mys_2035 m) = false).
      { destruct (PrimFloat.is_nan (mys_2035 m)) eqn:E; [|reflexivity].
        rewrite (add_nan_l _ 0%float E) in N. discriminate. }
      destruct (baseline_bounds df 0%float m (mys_2035 m) Im (or_intror eq_refl) N')
        as [L U].
      destruct (same_number_ltb _ _ (baseline_min (adjust df 0%float)) S) as [E1 _].
      destruct (same_number_ltb _ _ (baseline_max (adjust df 0%float)) S) as [_ E2].
      now rewrite E1, E2. }
  destruct B as [L U].
  split; now apply leb_of_not_ltb.
Qed.

(** Witness for X10: the merged XYZ row, whose range is (8.0, 9.0). *)
Lemma default_slider_keeps_maps_on_scale_witness :
  (baseline_min (adjust [mkMerged "XYZ" 8.0 9.0]%float 0%float),
   baseline_max (adjust [mkMerged "XYZ" 8.0 9.0]%float 0%float)) = (8.0, 9.0)%float /\
  Forall (fun r =>
            forall v, v = mys_2025 (base r) \/ v = mys_2035_sim r ->
                      PrimFloat.is_nan v = false ->
                      (baseline_min (adjust [mkMerged "XYZ" 8.0 9.0]%float 0%float)
                       <=? v)%float = true /\
                      (v <=? baseline_max (adjust [mkMerged "XYZ" 8.0 9.0]%float 0%float))%float
                      = true)
         (adjust [mkMerged "XYZ" 8.0 9.0]%float 0%float).
Proof.
  split; [vm_compute; reflexivity|].
  apply default_slider_keeps_maps_on_scale.
  exists (mkMerged "XYZ" 8.0 9.0)%float. split; [now left | reflexivity].
Defined.

(* ================================================================== *)
(** ** Size of the returned table *)
(* ================================================================== *)

Lemma merge_length (left right : list (string * float)) :
  (List.length (merge left right) <= List.length left * List.length right)%nat.
Proof.
  unfold merge. induction left as [|l t IH]; simpl; [lia|].
  rewrite length_app, length_map.
  pose proof (filter_length_le (fun r => String.eqb (fst l) (fst r)) right). lia.
Qed.

Lemma year_tables_length (sub : DataFrame) :
  (List.length (year_table 2025 sub) + List.length (year_table 2035 sub)
   <= List.length sub)%nat.
Proof.
  unfold year_table. rewrite !length_map.
  induction sub as [|r t IH]; simpl; [lia|].
  destruct (Csv.year r =? 2025) eqn:E1, (Csv.year r =? 2035) eqn:E2; simpl; lia.
Qed.

(** X11. A table returned by [load_mys] is never empty, so lines 134-162
    always work on at least one row; it has at most (2025 rows) x (2035
    rows) rows of the slice, and these two row counts together do not
    exceed the number of rows of the file. *)
Theorem returned_table_size
        (df : DataFrame) (df_merged : list merged) (youth : value) :
  load_mys df = Ok (df_merged, youth) ->
  exists label,
    detect_ssp1 (Py.unique Py.eqb (map Csv.scenario df)) = Ok label /\
    let near := year_table 2025 (df_ssp1 df label youth) in
    let far := year_table 2035 (df_ssp1 df label youth) in
    (1 <= List.length df_merged <= List.length near * List.length far)%nat /\
    (List.length near + List.length far <= List.length df)%nat /\
    forall delta, (1 <= List.length (adjust df_merged delta))%nat.
Proof.
  intros E. apply load_mys_Ok in E as (label & E1 & _ & E3).
  exists label. split; [exact E1|]. cbv zeta.
  apply build_tables_Ok in E3 as (_ & _ & -> & NE).
  pose proof (merge_length (year_table 2025 (df_ssp1 df label youth))
                           (year_table 2035 (df_ssp1 df label youth))) as B.
  assert (P : (1 <= List.length (merge (year_table 2025 (df_ssp1 df label youth))
                                       (year_table 2035 (df_ssp1 df label youth))))%nat).
  { destruct (merge _ _); [contradiction | simpl; lia]. }
  split; [lia|]. split.
  - pose proof (year_tables_length (df_ssp1 df label youth)).
    pose proof (filter_length_le (in_slice label youth) df).
    unfold df_ssp1 in *. lia.
  - intros delta. unfold adjust. now rewrite length_map.
Qed.

(** Witness for X11: the A, B, C / B, C, D table gives two rows. *)
Lemma returned_table_size_witness :
  exists label,
    detect_ssp1 (Py.unique Py.eqb (map Csv.scenario (abc_bcd "Both"))) = Ok label /\
    let near := year_table 2025 (df_ssp1 (abc_bcd "Both") label (VStr "15-24")) in
    let far := year_table 2035 (df_ssp1 (abc_bcd "Both") label (VStr "15-24")) in
    (1 <= List.length [mkMerged "B" 2.0 2.5; mkMerged "C" 3.0 3.5]%float
     <= List.length near * List.length far)%nat /\
    (List.length near + List.length far <= List.length (abc_bcd "Both"))%nat /\
    forall delta,
      (1 <= List.length (adjust [mkMerged "B" 2.0 2.5; mkMerged "C" 3.0 3.5]%float delta))%nat.
Proof.
  exact (returned_table_size (abc_bcd "Both") _ _ eq_refl).
Defined.

(* ================================================================== *)
(** ** Two runs of the script *)
(* ================================================================== *)

(** X12. Moving the slider changes nothing of what the 2025 baseline map
    is drawn from: two runs of the script on the same file with different
    slider values either stop with the same error, or end with tables that
    agree on [iso3], [mys_2025] and [mys_2035], row by row, and with the
    same colour range; they can differ only in the two added columns. *)
Theorem baseline_map_does_not_wiggle (csv : DataFrame) (d1 d2 : float) :
  match app csv d1, app csv d2 with
  | Ok (t1, range1), Ok (t2, range2) =>
      map base t1 = map base t2 /\
      map (fun r => iso3 (base r)) t1 = map (fun r => iso3 (base r)) t2 /\
      map (fun r => mys_2025 (base r)) t1 = map (fun r => mys_2025 (base r)) t2 /\
      range1 = range2 /\
      exists df_merged youth,
        load_mys csv = Ok (df_merged, youth) /\ map base t1 = df_merged
  | Raise e1, Raise e2 => e1 = e2 /\ load_mys csv = Raise e1
  | _, _ => False
  end.
Proof.
  unfold app. destruct (load_mys csv) as [[m y]|e]; simpl; [|now split].
  rewrite !baseline_min_adjust, !baseline_max_adjust.
  assert (B : forall d, map base (adjust m d) = m) by apply adjust_base.
  assert (P : forall (f : merged -> string) d,
             map (fun r => f (base r)) (adjust m d) = map f m).
  { intros f d. now rewrite <- (map_map base f), B. }
  assert (Q : forall (f : merged -> float) d,
             map (fun r => f (base r)) (adjust m d) = map f m).
  { intros f d. now rewrite <- (map_map base f), B. }
  rewrite !B, !P, !Q. repeat split. now exists m, y.
Qed.

(* ================================================================== *)
(** ** A single candidate, and no candidate row at all *)
(* ================================================================== *)

Lemma filter_head_In {A : Type} (f : A -> bool) (l : list A) (b : A) (rest : list A) :
  filter f l = b :: rest -> In b l /\ f b = true.
Proof.
  intros E. apply filter_In. rewrite E. now left.
Qed.

(** X13. A single candidate is chosen wherever it stands: when exactly
    one distinct age value carries a pattern "15-24", "15_24" or "1524", it
    is the label; when none carries a pattern and exactly one value
    mentions 15, that one is the label.  The order of the rows matters only
    between several candidates. *)
Theorem single_age_candidate_is_chosen (df : DataFrame) (a : value) :
  let age_vals := Py.unique Py.eqb (map Csv.age df) in
  ((exists r, In r df /\ Csv.age r = a) -> Direct15_24 a ->
   (forall r, In r df -> Direct15_24 (Csv.age r) -> Csv.age r = a) ->
   detect_youth age_vals = Ok a) /\
  ((exists r, In r df /\ Csv.age r = a) -> Mentions15 a ->
   (forall r, In r df -> Mentions15 (Csv.age r) -> Csv.age r = a) ->
   detect_youth age_vals = Ok a).
Proof.
  intros age_vals.
  assert (M : forall v, In v age_vals <-> exists r, In r df /\ Csv.age r = v).
  { intros v. apply distinct_values_In, py_eqb_eq. }
  split; intros Ia Pa U; apply M in Ia.
  - unfold detect_youth, youth_candidates.
    destruct (filter is_15_24 age_vals) as [|b rest] eqn:F.
    + exfalso. apply filter_nil_Forall in F. rewrite Forall_forall in F.
      apply (F a Ia). now apply is_15_24_spec.
    + apply filter_head_In in F as [Ib Db]. apply is_15_24_spec in Db.
      apply M in Ib as (r & Ir & <-). f_equal. now apply U.
  - unfold detect_youth, youth_candidates.
    destruct (filter is_15_24 age_vals) as [|b rest] eqn:F.
    + destruct (filter mentions_15 age_vals) as [|c rest'] eqn:G.
      * exfalso. apply filter_nil_Forall in G. rewrite Forall_forall in G.
        apply (G a Ia). now apply mentions_15_spec.
      * apply filter_head_In in G as [Ic Mc]. apply mentions_15_spec in Mc.
        apply M in Ic as (r & Ir & <-). f_equal. now apply U.
    + apply filter_head_In in F as [Ib Db].
      apply is_15_24_spec, direct_mentions_15 in Db.
      apply M in Ib as (r & Ir & <-). f_equal. now apply U.
Qed.

Lemma df_ssp1_no_both (df : DataFrame) (label youth : value) :
  (forall r, In r df -> Csv.sex r <> VStr "Both") -> df_ssp1 df label youth = [].
Proof.
  intros N. unfold df_ssp1. apply filter_nil_Forall, Forall_forall.
  intros r I E. rewrite (in_slice_other_sex label youth r (N r I)) in E.
  discriminate.
Qed.

(** X14. A file without a single row whose sex cell is exactly "Both"
    (an empty file, or one that spells the value differently) never yields
    a table: [load_mys] raises, and once both labels are detected the error
    is the missing-year error with an empty list of available years.  An
    empty file fails on the scenario label, with an empty list of values. *)
Theorem no_both_row_no_table (df : DataFrame) :
  (forall r, In r df -> Csv.sex r <> VStr "Both") ->
  (exists e, load_mys df = Raise e) /\
  (forall label youth,
      detect_ssp1 (Py.unique Py.eqb (map Csv.scenario df)) = Ok label ->
      detect_youth (Py.unique Py.eqb (map Csv.age df)) = Ok youth ->
      load_mys df = Raise (YearsNotFound [])) /\
  load_mys [] = Raise (CannotDetectSSP1 []).
Proof.
  intros N.
  assert (L : forall label youth,
             detect_ssp1 (Py.unique Py.eqb (map Csv.scenario df)) = Ok label ->
             detect_youth (Py.unique Py.eqb (map Csv.age df)) = Ok youth ->
             load_mys df = Raise (YearsNotFound [])).
  { intros label youth E1 E2. rewrite (load_mys_resolved _ _ _ E1 E2).
    now rewrite (df_ssp1_no_both df label youth N). }
  split; [|split; [exact L | reflexivity]].
  destruct (detect_ssp1 (Py.unique Py.eqb (map Csv.scenario df))) as [label|e1] eqn:E1.
  - destruct (detect_youth (Py.unique Py.eqb (map Csv.age df))) as [youth|e2] eqn:E2.
    + exists (YearsNotFound []). now apply (L label youth).
    + exists e2. unfold load_mys. now rewrite E1, E2.
  - exists e1. unfold load_mys. now rewrite E1.
Qed.

(** Witness for X14: the XYZ rows with the sex written "both". *)
Lemma no_both_row_no_table_witness :
  load_mys (xyz_table "both") = Raise (YearsNotFound []).
Proof.
  refine (proj1 (proj2 (no_both_row_no_table (xyz_table "both") _))
            (VInt 1) (VStr "15-24") eq_refl eq_refl).
  intros r [<- | [<- | []]]; discriminate.
Defined.
